(** * Sports-academy backend: subscription, entitlement and ledger core

    A shallow embedding of
      - models/subscriptionModel.js   (pre-save hook, isActive, daysRemaining,
                                       canBeCancelled, canBeRenewed,
                                       deductSession),
      - models/subscriptionPlanModel.js (the plan fields the hook reads,
                                       isDiscountValid),
      - models/transactionModel.js    (pre-save hook, generateInvoice,
                                       processRefund),
      - controllers/studentController.js (createSubscription),
      - the subscription controller   (deletePlan, deleteSubscription,
                                       createTransaction),
    followed by the properties of the written specification that concern
    them and by further properties of the code.

    Conventions of the embedding.
      - A JS [Date] is its time value: milliseconds since the epoch, in [Z].
        The local time zone is taken to be UTC.
      - A JS [Number] that counts sessions or money is an integer in [Z];
        [null]/[undefined] is [None].
      - A Mongoose collection is a list of documents; the [_id] of a document
        is its position in the list.  [findById] is list lookup, [save] on
        a loaded document writes it back at its position.  The two handlers
        that remove a document take the collection they remove from as a
        finite map from [_id] to document.
      - The driver is the one package.json declares, mongoose ^8.0.3.
        [create] takes the object the caller hands over, in which any path
        may be missing; it validates the schema's required paths and the
        cast of what is assigned to a Number path, then runs the schema's
        pre-save hook, then appends the document.  A stored document is a
        well-typed record.  A query populates the paths the schema's
        [pre(/^find/)] hook names. *)

From Stdlib Require Import ZArith Lia Bool.
From stdpp Require Import base list strings pretty gmap.

Local Open Scope Z_scope.

(** ** ECMAScript date arithmetic (the part used by setDate, setMonth and
       setFullYear) *)

Module JsDate.

Definition Date := Z.

Definition msPerDay : Z := 86400000.

Definition Day (t : Date) : Z := t / msPerDay.
Definition TimeWithinDay (t : Date) : Z := t mod msPerDay.

Definition isLeapYear (y : Z) : bool :=
  ((y mod 4 =? 0) && negb (y mod 100 =? 0)) || (y mod 400 =? 0).

Definition DaysInYear (y : Z) : Z := if isLeapYear y then 366 else 365.

Definition DayFromYear (y : Z) : Z :=
  365 * (y - 1970) + (y - 1969) / 4 - (y - 1901) / 100 + (y - 1601) / 400.

(** The year containing day number [d]: the largest [y] with
    [DayFromYear y <= d].  Computed on the 400-year cycle of the Gregorian
    calendar, counted from 1 March of year 0. *)
Definition yearOfDay (d : Z) : Z :=
  let z := d + 719468 in
  let era := z / 146097 in
  let doe := z - era * 146097 in
  let yoe := (doe - doe / 1460 + doe / 36524 - doe / 146096) / 365 in
  let doy := doe - (365 * yoe + yoe / 4 - yoe / 100) in
  let y := yoe + era * 400 in
  if doy <? 306 then y else y + 1.

Definition YearFromTime (t : Date) : Z := yearOfDay (Day t).

Definition DayWithinYear (t : Date) : Z := Day t - DayFromYear (YearFromTime t).

(** Number of days of the year that precede month [m] (0 = January). *)
Definition monthStart (leap : bool) (m : Z) : Z :=
  let l := if leap then 1 else 0 in
  if m <=? 0 then 0
  else if m =? 1 then 31
  else if m =? 2 then 59 + l
  else if m =? 3 then 90 + l
  else if m =? 4 then 120 + l
  else if m =? 5 then 151 + l
  else if m =? 6 then 181 + l
  else if m =? 7 then 212 + l
  else if m =? 8 then 243 + l
  else if m =? 9 then 273 + l
  else if m =? 10 then 304 + l
  else 334 + l.

Definition monthOfDayInYear (leap : bool) (d : Z) : Z :=
  if d <? monthStart leap 1 then 0
  else if d <? monthStart leap 2 then 1
  else if d <? monthStart leap 3 then 2
  else if d <? monthStart leap 4 then 3
  else if d <? monthStart leap 5 then 4
  else if d <? monthStart leap 6 then 5
  else if d <? monthStart leap 7 then 6
  else if d <? monthStart leap 8 then 7
  else if d <? monthStart leap 9 then 8
  else if d <? monthStart leap 10 then 9
  else if d <? monthStart leap 11 then 10
  else 11.

(** Length of month [m] (0 = January). *)
Definition daysInMonth (leap : bool) (m : Z) : Z :=
  if m =? 11 then 31 else monthStart leap (m + 1) - monthStart leap m.

Definition MonthFromTime (t : Date) : Z :=
  monthOfDayInYear (isLeapYear (YearFromTime t)) (DayWithinYear t).

Definition DateFromTime (t : Date) : Z :=
  DayWithinYear t
  - monthStart (isLeapYear (YearFromTime t)) (MonthFromTime t) + 1.

(** MakeDay(year, month, date): months outside 0..11 carry into the year,
    dates outside the month carry into the following (or preceding) days. *)
Definition MakeDay (year month date : Z) : Z :=
  let ym := year + month / 12 in
  let mn := month mod 12 in
  DayFromYear ym + monthStart (isLeapYear ym) mn + date - 1.

Definition MakeDate (day time : Z) : Date := day * msPerDay + time.

Definition getFullYear (t : Date) : Z := YearFromTime t.
Definition getMonth (t : Date) : Z := MonthFromTime t.
Definition getDate (t : Date) : Z := DateFromTime t.

(** The setters return the new time value, which is also the value the
    Date object holds afterwards. *)
Definition setDate (t : Date) (date : Z) : Date :=
  MakeDate (MakeDay (YearFromTime t) (MonthFromTime t) date) (TimeWithinDay t).

Definition setMonth (t : Date) (month : Z) : Date :=
  MakeDate (MakeDay (YearFromTime t) month (DateFromTime t)) (TimeWithinDay t).

Definition setFullYear (t : Date) (year : Z) : Date :=
  MakeDate (MakeDay year (MonthFromTime t) (DateFromTime t)) (TimeWithinDay t).

(** Midnight UTC of a calendar date (month 1..12), for writing examples. *)
Definition ymd (y m d : Z) : Date := MakeDate (MakeDay y (m - 1) d) 0.

End JsDate.

Import JsDate.

(** ** Values shared by the schemas *)

Inductive PaymentMethod :=
  credit_card | debit_card | paypal | bank_transfer | cash | other.

(** JS truthiness of a nullable Number and of a nullable String. *)
Definition truthyNumber (n : option Z) : bool :=
  match n with
  | Some z => negb (z =? 0)
  | None => false
  end.

Definition truthyString (s : option string) : bool :=
  match s with
  | Some EmptyString => false
  | Some _ => true
  | None => false
  end.

(** [a || b] on a nullable Number with a Number fallback, and on a nullable
    String with a String fallback. *)
Definition orNumber (a : option Z) (b : Z) : Z :=
  match a with
  | Some z => if z =? 0 then b else z
  | None => b
  end.

Definition orString (a : option string) (b : string) : string :=
  if truthyString a then default b a else b.

(** What the driver's validation, which runs on [save] before the schema's
    pre-save hooks, reports for a path: a required value is missing (with
    the schema's message), or the value given cannot be cast to the type of
    the path. *)
Inductive PathError :=
| Required (message : string)
| CastFailed (path : string).

Definition requiredField {A} (v : option A) (message : string) : list PathError :=
  match v with
  | Some _ => []
  | None => [Required message]
  end.

(** A required String must also be non-empty. *)
Definition requiredString (v : option string) (message : string) : list PathError :=
  if truthyString v then [] else [Required message].

(** A String path with a default: only an empty string given explicitly
    fails the requirement. *)
Definition requiredDefaulted (v : option string) (message : string)
  : list PathError :=
  match v with
  | Some EmptyString => [Required message]
  | _ => []
  end.


(** ** models/subscriptionPlanModel.js *)

Module SubscriptionPlanModel.

Inductive DurationUnit := days | weeks | months | years.

Record Duration := { value : Z; unit : DurationUnit }.

Record Price := { amount : Z; currency : string }.

Record SubscriptionPlan := {
  name : string;
  duration : Duration;
  price : Price;
  isActive : bool;
  maxSessions : option Z;          (* null means unlimited *)
  allowedCoachSessions : Z
}.

(** The controller reads [plan.durationType]; the schema has no such path,
    so the read yields [undefined] on every plan. *)
Definition durationType (_ : SubscriptionPlan) : option DurationUnit := None.

End SubscriptionPlanModel.

(** ** models/subscriptionModel.js *)

Module SubscriptionModel.
Import SubscriptionPlanModel.

Inductive Status := active | expired | cancelled | pending.
Inductive PaymentStatus := paid | paymentPending | failed | refunded.

Record Subscription := {
  student : nat;
  plan : nat;
  startDate : option Date;         (* default Date.now; None is null *)
  endDate : option Date;           (* absent on a new document until set *)
  status : Status;                 (* default pending *)
  autoRenew : bool;
  paymentMethod : PaymentMethod;
  paymentStatus : PaymentStatus;
  amountPaid : Z;
  currency : string;
  invoiceId : option string;
  remainingSessions : option Z;    (* default null: null means unlimited *)
  notes : option string;
  cancelledAt : option Date;
  cancelReason : option string
}.

Definition set_endDate (e : option Date) (s : Subscription) : Subscription :=
  {| student := student s; plan := plan s; startDate := startDate s;
     endDate := e; status := status s; autoRenew := autoRenew s;
     paymentMethod := paymentMethod s; paymentStatus := paymentStatus s;
     amountPaid := amountPaid s; currency := currency s;
     invoiceId := invoiceId s; remainingSessions := remainingSessions s;
     notes := notes s; cancelledAt := cancelledAt s;
     cancelReason := cancelReason s |}.

Definition set_remainingSessions (r : option Z) (s : Subscription) : Subscription :=
  {| student := student s; plan := plan s; startDate := startDate s;
     endDate := endDate s; status := status s; autoRenew := autoRenew s;
     paymentMethod := paymentMethod s; paymentStatus := paymentStatus s;
     amountPaid := amountPaid s; currency := currency s;
     invoiceId := invoiceId s; remainingSessions := r;
     notes := notes s; cancelledAt := cancelledAt s;
     cancelReason := cancelReason s |}.

Definition set_status (st : Status) (s : Subscription) : Subscription :=
  {| student := student s; plan := plan s; startDate := startDate s;
     endDate := endDate s; status := st; autoRenew := autoRenew s;
     paymentMethod := paymentMethod s; paymentStatus := paymentStatus s;
     amountPaid := amountPaid s; currency := currency s;
     invoiceId := invoiceId s; remainingSessions := remainingSessions s;
     notes := notes s; cancelledAt := cancelledAt s;
     cancelReason := cancelReason s |}.

Definition set_cancelled (at_ : Date) (reason : option string) (s : Subscription)
  : Subscription :=
  {| student := student s; plan := plan s; startDate := startDate s;
     endDate := endDate s; status := cancelled; autoRenew := autoRenew s;
     paymentMethod := paymentMethod s; paymentStatus := paymentStatus s;
     amountPaid := amountPaid s; currency := currency s;
     invoiceId := invoiceId s; remainingSessions := remainingSessions s;
     notes := notes s; cancelledAt := Some at_;
     cancelReason := reason |}.

Definition status_eqb (a b : Status) : bool :=
  match a, b with
  | active, active | expired, expired | cancelled, cancelled
  | pending, pending => true
  | _, _ => false
  end.

(** The collection, and a loaded document: its [_id], whether it is new,
    and its fields. *)
Abbreviation Collection := (list Subscription).

Record Document := { _id : nat; doc : Subscription }.

Definition findById (id : nat) (db : Collection) : option Document :=
  (fun s => {| _id := id; doc := s |}) <$> db !! id.

Inductive HookError := PlanNotFound.

Definition hookMessage (e : HookError) : string :=
  match e with PlanNotFound => "Subscription plan not found" end.

(** End date by plan duration: the [switch] of the pre-save hook. *)
Definition addDuration (startDate : Date) (d : Duration) : Date :=
  match unit d with
  | days => setDate startDate (getDate startDate + value d)
  | weeks => setDate startDate (getDate startDate + value d * 7)
  | months => setMonth startDate (getMonth startDate + value d)
  | years => setFullYear startDate (getFullYear startDate + value d)
  end.

(** subscriptionSchema.pre('save'): on a new document without an end date,
    look the plan up, derive the end date and copy the session allotment. *)
Definition preSave (plans : list SubscriptionPlan) (now : Date)
    (new : bool) (this : Subscription) : HookError + Subscription :=
  if new && negb (bool_decide (is_Some (endDate this))) then
    match plans !! plan this with
    | None => inl PlanNotFound
    | Some p =>
        let startDate := default now (startDate this) in
        let endDate := addDuration startDate (duration p) in
        let this := set_endDate (Some endDate) this in
        inr (if truthyNumber (maxSessions p)
             then set_remainingSessions (maxSessions p) this
             else this)
    end
  else inr this.

(** The object handed to [Subscription.create]: every path may be missing. *)
Record Candidate := {
  c_student : option nat;
  c_plan : option nat;
  c_startDate : option Date;
  c_endDate : option Date;
  c_status : option Status;
  c_autoRenew : option bool;
  c_paymentMethod : option PaymentMethod;
  c_paymentStatus : option PaymentStatus;
  c_amountPaid : option Z;
  c_currency : option string;
  c_invoiceId : option string;
  c_remainingSessions : option Z;
  c_notes : option string
}.

(** The schema's [required] paths, in schema order. *)
Definition validate (c : Candidate) : list PathError :=
  requiredField (c_student c) "Subscription must belong to a student"
  ++ requiredField (c_plan c) "Subscription must be based on a plan"
  ++ requiredField (c_endDate c) "Subscription must have an end date"
  ++ requiredField (c_paymentMethod c) "Payment method is required"
  ++ requiredField (c_amountPaid c) "Amount paid is required"
  ++ requiredDefaulted (c_currency c) "Currency is required".

(** The new document, with the schema's defaults ([Date.now] for
    [startDate], read at [now]). *)
Definition construct (now : Date) (c : Candidate) : option Subscription :=
  match c_student c, c_plan c, c_paymentMethod c, c_amountPaid c with
  | Some st, Some pl, Some pm, Some amt =>
      Some {| student := st; plan := pl;
              startDate := Some (default now (c_startDate c));
              endDate := c_endDate c;
              status := default pending (c_status c);
              autoRenew := default false (c_autoRenew c);
              paymentMethod := pm;
              paymentStatus := default paymentPending (c_paymentStatus c);
              amountPaid := amt;
              currency := default "USD" (c_currency c);
              invoiceId := c_invoiceId c;
              remainingSessions := c_remainingSessions c;
              notes := c_notes c;
              cancelledAt := None; cancelReason := None |}
  | _, _, _, _ => None
  end.

Inductive CreateError :=
| ValidationFailed (errors : list PathError)
| HookFailed (e : HookError).

(** [Subscription.create]: validation, then the pre-save hook, then insert;
    the new [_id] is the next position. *)
Definition create (plans : list SubscriptionPlan) (now : Date)
    (c : Candidate) (db : Collection)
  : CreateError + (Document * Collection) :=
  match validate c, construct now c with
  | [], Some s =>
      match preSave plans now true s with
      | inl e => inl (HookFailed e)
      | inr s' => inr ({| _id := length db; doc := s' |}, db ++ [s'])
      end
  | errors, _ => inl (ValidationFailed errors)
  end.


(** [this.save()] on a loaded document: the document is not new, so the
    hook passes it on untouched, and the fields are written back at
    [_id]. *)
Definition save (this : Document) (db : Collection) : Collection :=
  <[_id this := doc this]> db.

(** Virtual [isActive]. *)
Definition isActive (now : Date) (this : Subscription) : bool :=
  status_eqb (status this) active
  && (match startDate this with Some s => s <=? now | None => 0 <=? now end)
  && (match endDate this with Some e => now <=? e | None => false end)
  && (match remainingSessions this with
      | None => true
      | Some n => 0 <? n
      end).

Definition canBeCancelled (this : Subscription) : bool :=
  status_eqb (status this) active.

(** [canBeRenewed]: [this.endDate.setDate(...)] moves the in-memory end date
    back by 30 days and yields its new time value, against which [now] is
    compared.  [None]: the document has no end date and the call throws.
    The second component is the document after the call. *)
Definition canBeRenewed (now : Date) (this : Subscription)
  : option (bool * Subscription) :=
  if status_eqb (status this) active || status_eqb (status this) expired then
    match endDate this with
    | None => None
    | Some e =>
        let e' := setDate e (getDate e - 30) in
        Some (now >? e', set_endDate (Some e') this)
    end
  else Some (false, this).

(** [deductSession]: the result, the document afterwards and the
    collection afterwards.  [false] is the failure the specification calls
    EntitlementExhausted. *)
Definition deductSession (this : Document) (db : Collection)
  : bool * Document * Collection :=
  match remainingSessions (doc this) with
  | None => (true, this, db)
  | Some n =>
      if n <=? 0 then (false, this, db)
      else
        let this' :=
          {| _id := _id this;
             doc := set_remainingSessions (Some (n - 1)) (doc this) |} in
        (true, this', save this' db)
  end.

(** [n] calls in a row on the same loaded document; the results come in
    call order. *)
Fixpoint deductSessions (n : nat) (this : Document) (db : Collection)
  : list bool * Document * Collection :=
  match n with
  | O => ([], this, db)
  | S k =>
      let '(r, this1, db1) := deductSession this db in
      let '(rs, this2, db2) := deductSessions k this1 db1 in
      (r :: rs, this2, db2)
  end.

(** Callers that each load the subscription [id] and then call
    [deductSession] on the document they loaded, in an interleaving given
    by a schedule.  Between the load and the call other callers may run;
    the check, the decrement and the save of one call are not
    interrupted. *)
Inductive Event := Load (caller : nat) | Deduct (caller : nat).

Record World := {
  store : Collection;
  loaded : gmap nat Document;      (* the document each caller holds *)
  results : gmap nat bool          (* what each caller's call returned *)
}.

Definition step (id : nat) (w : World) (e : Event) : World :=
  match e with
  | Load c =>
      match findById id (store w) with
      | Some d =>
          {| store := store w; loaded := <[c := d]> (loaded w);
             results := results w |}
      | None => w
      end
  | Deduct c =>
      match loaded w !! c with
      | Some d =>
          let '(r, d', db') := deductSession d (store w) in
          {| store := db'; loaded := <[c := d']> (loaded w);
             results := <[c := r]> (results w) |}
      | None => w
      end
  end.

Definition run (id : nat) (w : World) (schedule : list Event) : World :=
  foldl (step id) w schedule.

Definition initial (db : Collection) : World :=
  {| store := db; loaded := ∅; results := ∅ |}.

Definition storedSessions (id : nat) (w : World) : option (option Z) :=
  remainingSessions <$> store w !! id.

(** A schedule in which every caller loads before it deducts. *)
Fixpoint loadsFirst (seen : list nat) (schedule : list Event) : bool :=
  match schedule with
  | [] => true
  | Load c :: rest => loadsFirst (c :: seen) rest
  | Deduct c :: rest => bool_decide (c ∈ seen) && loadsFirst seen rest
  end.

(** The interleavings of two callers, 0 and 1, each loading once and
    calling [deductSession] once. *)
Definition twoCallers : list (list Event) :=
  filter (fun schedule => loadsFirst [] schedule = true)
    (permutations [Load 0; Deduct 0; Load 1; Deduct 1]%nat).

(** Both callers have loaded before either calls [deductSession]. *)
Definition overlapping (schedule : list Event) : bool :=
  match schedule with
  | Load _ :: Load _ :: _ => true
  | _ => false
  end.

(** What holds of the world while callers load and deduct: the stored
    balance and every balance held by a caller lie between 0 and the
    initial one. *)
Definition bounded (n : Z) (id : nat) (w : World) : Prop :=
  (exists s m, store w !! id = Some s
               /\ remainingSessions s = Some m /\ 0 <= m <= n)
  /\ (forall c d, loaded w !! c = Some d ->
        _id d = id
        /\ exists k, remainingSessions (doc d) = Some k /\ 0 <= k <= n).

(** Modelled from the spec: [cancelSubscription(id, reason)], which the
    source does not contain.  It is gated by the source's [canBeCancelled];
    on success it sets status, [cancelledAt = now] and the reason, and it
    fails with InvalidStateError otherwise, changing nothing. *)
Inductive CancelError := InvalidStateError.

Definition cancelSubscription (now : Date) (reason : option string)
    (this : Document) (db : Collection)
  : (CancelError + Document) * Collection :=
  if canBeCancelled (doc this) then
    let this' :=
      {| _id := _id this; doc := set_cancelled now reason (doc this) |} in
    (inr this', save this' db)
  else (inl InvalidStateError, db).

End SubscriptionModel.

(** ** models/transactionModel.js *)

Module TransactionModel.

Inductive TransactionType := payment | refund | adjustment.
Inductive PaymentGateway := stripe | gatewayPaypal | manual | gatewayOther.
Inductive Status := pending | completed | failed | refunded | disputed.

Record Transaction := {
  student : nat;
  subscription : nat;
  transactionId : option string;   (* absent on a new document until set *)
  type : TransactionType;
  amount : Z;
  currency : string;
  paymentMethod : PaymentMethod;
  paymentGateway : PaymentGateway;
  status : Status;
  notes : option string;
  refundedTransaction : option nat;
  invoiceId : option string;
  invoiceUrl : option string;
  receiptUrl : option string
}.

Definition set_status (st : Status) (t : Transaction) : Transaction :=
  {| student := student t; subscription := subscription t;
     transactionId := transactionId t; type := type t; amount := amount t;
     currency := currency t; paymentMethod := paymentMethod t;
     paymentGateway := paymentGateway t; status := st; notes := notes t;
     refundedTransaction := refundedTransaction t;
     invoiceId := invoiceId t; invoiceUrl := invoiceUrl t;
     receiptUrl := receiptUrl t |}.

Definition set_transactionId (i : option string) (t : Transaction) : Transaction :=
  {| student := student t; subscription := subscription t;
     transactionId := i; type := type t; amount := amount t;
     currency := currency t; paymentMethod := paymentMethod t;
     paymentGateway := paymentGateway t; status := status t; notes := notes t;
     refundedTransaction := refundedTransaction t;
     invoiceId := invoiceId t; invoiceUrl := invoiceUrl t;
     receiptUrl := receiptUrl t |}.

Definition status_eqb (a b : Status) : bool :=
  match a, b with
  | pending, pending | completed, completed | failed, failed
  | refunded, refunded | disputed, disputed => true
  | _, _ => false
  end.

Abbreviation Ledger := (list Transaction).

Record Document := { _id : nat; doc : Transaction }.

(** What the pre-save hook reads from the outside: the clock and
    [Math.floor(Math.random() * 10000)]. *)
Record Env := { timestamp : Z; randomNum : Z }.

(** The failures of the model: the three [throw] sites of [processRefund],
    the driver's validation of a new row, and the unique index on
    [transactionId]. *)
Inductive Error :=
| TransactionNotFound
| NotCompleted
| RefundExceedsOriginal
| DuplicateKey
| ValidationFailed (errors : list PathError).

Definition message (e : Error) : string :=
  match e with
  | TransactionNotFound => "Transaction not found"
  | NotCompleted => "Only completed transactions can be refunded"
  | RefundExceedsOriginal =>
      "Refund amount cannot exceed the original transaction amount"
  | DuplicateKey => "E11000 duplicate key error"
  | ValidationFailed _ => "Transaction validation failed"
  end.

(** The names the specification gives to these failures. *)
Inductive ErrorClass :=
  NotFoundError | InvalidStateError | ValidationError | ConflictError.

Definition classify (e : Error) : ErrorClass :=
  match e with
  | TransactionNotFound => NotFoundError
  | NotCompleted => InvalidStateError
  | RefundExceedsOriginal => ValidationError
  | DuplicateKey => ConflictError
  | ValidationFailed _ => ValidationError
  end.

(** `TRX-${timestamp}-${randomNum}` *)
Definition generateTransactionId (env : Env) : string :=
  "TRX-" +:+ pretty (timestamp env) +:+ "-" +:+ pretty (randomNum env).

(** transactionSchema.pre('save'). *)
Definition preSave (env : Env) (new : bool) (this : Transaction) : Transaction :=
  if new && negb (truthyString (transactionId this)) then
    set_transactionId (Some (generateTransactionId env)) this
  else this.

Definition hasTransactionId (i : option string) (t : Transaction) : bool :=
  bool_decide (transactionId t = i).

(** What may be assigned to the Number path [amount]: a number, or the
    price sub-document of a plan, which the cast to Number rejects. *)
Inductive AmountInput :=
| Amount (z : Z)
| PriceObject (p : SubscriptionPlanModel.Price).

(** The object handed to [Transaction.create]: every path may be missing. *)
Record Candidate := {
  c_student : option nat;
  c_subscription : option nat;
  c_transactionId : option string;
  c_type : option TransactionType;
  c_amount : option AmountInput;
  c_currency : option string;
  c_paymentMethod : option PaymentMethod;
  c_paymentGateway : option PaymentGateway;
  c_status : option Status;
  c_notes : option string;
  c_refundedTransaction : option nat
}.

(** The schema's [required] paths and the cast of [amount], in schema
    order. *)
Definition validate (c : Candidate) : list PathError :=
  requiredField (c_student c) "Transaction must belong to a student"
  ++ requiredField (c_subscription c)
       "Transaction must be associated with a subscription"
  ++ requiredString (c_transactionId c) "Transaction ID is required"
  ++ requiredField (c_type c) "Transaction type is required"
  ++ match c_amount c with
     | None => [Required "Transaction amount is required"]
     | Some (PriceObject _) => [CastFailed "amount"]
     | Some (Amount _) => []
     end
  ++ requiredDefaulted (c_currency c) "Currency is required"
  ++ requiredField (c_paymentMethod c) "Payment method is required".

(** The new document, with the schema's defaults. *)
Definition construct (c : Candidate) : option Transaction :=
  match c_student c, c_subscription c, c_type c, c_amount c,
        c_paymentMethod c with
  | Some st, Some sub, Some ty, Some (Amount a), Some pm =>
      Some {| student := st; subscription := sub;
              transactionId := c_transactionId c;
              type := ty; amount := a;
              currency := default "USD" (c_currency c);
              paymentMethod := pm;
              paymentGateway := default manual (c_paymentGateway c);
              status := default pending (c_status c);
              notes := c_notes c;
              refundedTransaction := c_refundedTransaction c;
              invoiceId := None; invoiceUrl := None; receiptUrl := None |}
  | _, _, _, _, _ => None
  end.

(** [Transaction.create]: validation, then the pre-save hook, then the
    unique index on [transactionId], then insert. *)
Definition create (env : Env) (c : Candidate) (db : Ledger)
  : Error + (Document * Ledger) :=
  match validate c, construct c with
  | [], Some t =>
      let t' := preSave env true t in
      if existsb (hasTransactionId (transactionId t')) db then inl DuplicateKey
      else inr ({| _id := length db; doc := t' |}, db ++ [t'])
  | errors, _ => inl (ValidationFailed errors)
  end.

(** [this.findOne({ transactionId })]: the first match. *)
Definition findOne (tid : string) (db : Ledger) : option Document :=
  (fun p : nat * Transaction => {| _id := p.1; doc := p.2 |})
    <$> list_find (fun t => transactionId t = Some tid) db.

Definition save (this : Document) (db : Ledger) : Ledger :=
  <[_id this := doc this]> db.

(** [const refundAmount = amount || originalTransaction.amount] *)
Definition refundAmount (amount_ : option Z) (original : Transaction) : Z :=
  orNumber amount_ (amount original).

(** The object [processRefund] hands to [create]: it carries no
    [transactionId]. *)
Definition refundOf (originalTransaction : Document) (refundAmount : Z)
    (reason : option string) : Candidate :=
  let original := doc originalTransaction in
  {| c_student := Some (student original);
     c_subscription := Some (subscription original);
     c_transactionId := None;
     c_type := Some refund;
     c_amount := Some (Amount refundAmount);
     c_currency := Some (currency original);
     c_paymentMethod := Some (paymentMethod original);
     c_paymentGateway := Some (paymentGateway original);
     c_status := Some completed;
     c_notes := Some (orString reason "Refund processed");
     c_refundedTransaction := Some (_id originalTransaction) |}.

(** [processRefund(transactionId, amount, reason)]: the refund row or the
    error thrown, and the ledger afterwards. *)
Definition processRefund (env : Env) (tid : string) (amount_ : option Z)
    (reason : option string) (db : Ledger) : (Error + Document) * Ledger :=
  match findOne tid db with
  | None => (inl TransactionNotFound, db)
  | Some originalTransaction =>
      let original := doc originalTransaction in
      if negb (status_eqb (status original) completed) then
        (inl NotCompleted, db)
      else
        let refundAmount := refundAmount amount_ original in
        if refundAmount >? amount original then
          (inl RefundExceedsOriginal, db)
        else
          match create env (refundOf originalTransaction refundAmount reason) db with
          | inl e => (inl e, db)
          | inr (refundTransaction, db1) =>
              let originalTransaction' :=
                {| _id := _id originalTransaction;
                   doc := set_status refunded original |} in
              (inr refundTransaction, save originalTransaction' db1)
          end
  end.

(** A call of [processRefund] with what it reads from the outside, and a
    sequence of calls on the ledger. *)
Record RefundCall := {
  call_env : Env;
  call_transactionId : string;
  call_amount : option Z;
  call_reason : option string
}.

Definition processRefunds (calls : list RefundCall) (db : Ledger) : Ledger :=
  foldl
    (fun db c =>
       (processRefund (call_env c) (call_transactionId c) (call_amount c)
          (call_reason c) db).2)
    db calls.


End TransactionModel.

(** ** The request side shared by the two controllers *)

Inductive Role := admin | coach | student.

Record User := { id : nat; role : Role }.

Definition isStudent (u : User) : bool :=
  match role u with student => true | _ => false end.

(** models/studentProfileModel.js: the profile's [user] reference as a
    query returns it.  The schema's [pre(/^find/)] hook populates it, so it
    is the user document (given here by its [_id]), or null when no active
    user has that [_id]. *)
Record StudentProfile := { user : option nat }.

(** What [toString()] yields: on an ObjectId its hex string, on a populated
    document the printed document.  [req.user.id] is of the first kind. *)
Inductive Rendering :=
| ObjectIdString (i : nat)
| DocumentString (i : nat).

Definition rendering_eqb (a b : Rendering) : bool :=
  match a, b with
  | ObjectIdString i, ObjectIdString j => Nat.eqb i j
  | DocumentString i, DocumentString j => Nat.eqb i j
  | _, _ => false
  end.

(** ** controllers/studentController.js: createSubscription *)

Module StudentController.
Import SubscriptionPlanModel SubscriptionModel.

(** [req.body]: the fields of the subscription the client may send.  The
    controller overwrites [student], [endDate] and [status], so those are
    left out. *)
Record Body := {
  body_plan : option nat;
  body_startDate : option Date;
  body_autoRenew : option bool;
  body_paymentMethod : option PaymentMethod;
  body_paymentStatus : option PaymentStatus;
  body_amountPaid : option Z;
  body_currency : option string;
  body_invoiceId : option string;
  body_remainingSessions : option Z;   (* null unless the client sends it *)
  body_notes : option string
}.

Record Request := { params_id : nat; req_user : User; body : Body }.

Inductive Failure :=
| TypeError                        (* a method was called on null *)
| StoreError (e : CreateError).

Inductive Response :=
| Fail404 (message : string)
| Fail403 (message : string)
| Success201 (subscription : Document)
| Next (error : Failure).

(** [req.user.role === 'student' && req.user.id !== student.user.toString()].
    The right operand is only read for a student; it throws when the
    populated user is null. *)
Definition denied (req : Request) (student : StudentProfile) : Failure + bool :=
  if isStudent (req_user req) then
    match user student with
    | None => inl TypeError
    | Some u =>
        inr (negb (rendering_eqb (ObjectIdString (id (req_user req)))
                     (DocumentString u)))
    end
  else inr false.

(** The controller's own end-date computation.  It reads
    [plan.durationType], and adds [plan.duration], which is the plan's
    duration sub-document; the model adds its [value]. *)
Definition controllerEndDate (plan : SubscriptionPlan) (startDate : Date) : Date :=
  match durationType plan with
  | Some days => setDate startDate (getDate startDate + value (duration plan))
  | Some months => setMonth startDate (getMonth startDate + value (duration plan))
  | Some years =>
      setFullYear startDate (getFullYear startDate + value (duration plan))
  | _ => startDate
  end.

(** The object passed to [Subscription.create]: [req.body] with [student],
    [endDate] and [status] set by the handler. *)
Definition candidateOf (req : Request) (endDate : Date) : Candidate :=
  let b := body req in
  {| c_student := Some (params_id req);
     c_plan := body_plan b;
     c_startDate := body_startDate b;
     c_endDate := Some endDate;
     c_status := Some active;
     c_autoRenew := body_autoRenew b;
     c_paymentMethod := body_paymentMethod b;
     c_paymentStatus := body_paymentStatus b;
     c_amountPaid := body_amountPaid b;
     c_currency := body_currency b;
     c_invoiceId := body_invoiceId b;
     c_remainingSessions := body_remainingSessions b;
     c_notes := body_notes b |}.

(** The handler reads the clock itself ([handlerNow], for a missing
    [startDate]); the schema's default for [startDate] reads it again when
    the document is built ([defaultNow]). *)
Definition createSubscription (handlerNow defaultNow : Date)
    (students : list StudentProfile) (plans : list SubscriptionPlan)
    (db : Collection) (req : Request) : Response * Collection :=
  match students !! params_id req with
  | None => (Fail404 "Student not found", db)
  | Some student =>
      match denied req student with
      | inl e => (Next e, db)
      | inr true =>
          (Fail403 "You can only create subscriptions for yourself", db)
      | inr false =>
          match body_plan (body req) ≫= (fun planId => plans !! planId) with
          | None => (Fail404 "Subscription plan not found", db)
          | Some plan =>
              let startDate := default handlerNow (body_startDate (body req)) in
              let endDate := controllerEndDate plan startDate in
              match create plans defaultNow (candidateOf req endDate) db with
              | inl e => (Next (StoreError e), db)
              | inr (subscription, db') => (Success201 subscription, db')
              end
          end
      end
  end.

End StudentController.

(** ** The subscription controller: createTransaction *)

Module SubscriptionController.
Import SubscriptionPlanModel.

(** [req.body]: the fields of the transaction the client sends.  The
    controller overwrites [subscription], [amount] and [status]. *)
Record Body := {
  body_student : option nat;
  body_transactionId : option string;
  body_type : option TransactionModel.TransactionType;
  body_currency : option string;
  body_paymentMethod : option PaymentMethod;
  body_paymentGateway : option TransactionModel.PaymentGateway;
  body_notes : option string;
  body_refundedTransaction : option nat
}.

Record Request := { params_subscriptionId : nat; req_user : User; body : Body }.

Inductive Failure :=
| TypeError                       (* a property of null or undefined was read *)
| StoreError (e : TransactionModel.Error).

Inductive Response :=
| Fail404 (message : string)
| Fail403 (message : string)
| Success201 (transaction : TransactionModel.Document)
| Next (error : Failure).

(** The two collections the handler writes. *)
Record Store := {
  subscriptions : SubscriptionModel.Collection;
  transactions : TransactionModel.Ledger
}.

(** [req.body] as the handler passes it to [Transaction.create]: the
    subscription, the amount and the status are the handler's, and the
    amount is [subscription.plan.price], the plan's price sub-document. *)
Definition transactionOf (req : Request) (plan : SubscriptionPlan)
  : TransactionModel.Candidate :=
  let b := body req in
  {| TransactionModel.c_student := body_student b;
     TransactionModel.c_subscription := Some (params_subscriptionId req);
     TransactionModel.c_transactionId := body_transactionId b;
     TransactionModel.c_type := body_type b;
     TransactionModel.c_amount := Some (TransactionModel.PriceObject (price plan));
     TransactionModel.c_currency := body_currency b;
     TransactionModel.c_paymentMethod := body_paymentMethod b;
     TransactionModel.c_paymentGateway := body_paymentGateway b;
     TransactionModel.c_status := Some TransactionModel.completed;
     TransactionModel.c_notes := body_notes b;
     TransactionModel.c_refundedTransaction := body_refundedTransaction b |}.

(** The permission check: [req.user.role === 'student' &&
    subscription.student.user._id.toString() !== req.user.id].  The
    subscription's [student] path refers to the User model, so what the
    query puts there is a user document or null, and a user has no [user]:
    the right operand, read only for a student, throws. *)
Definition denied (req : Request) : Failure + bool :=
  if isStudent (req_user req) then inl TypeError else inr false.

Definition createTransaction (env : TransactionModel.Env)
    (plans : list SubscriptionPlan) (st : Store) (req : Request)
  : Response * Store :=
  match SubscriptionModel.findById (params_subscriptionId req) (subscriptions st) with
  | None => (Fail404 "Subscription not found", st)
  | Some subscription =>
      let s := SubscriptionModel.doc subscription in
      match denied req with
      | inl e => (Next e, st)
      | inr true =>
          (Fail403 "You can only create transactions for your own subscriptions", st)
      | inr false =>
          (* [subscription.plan] is null when the plan is gone *)
          match plans !! SubscriptionModel.plan s with
          | None => (Next TypeError, st)
          | Some plan =>
              match
                TransactionModel.create env (transactionOf req plan)
                  (transactions st)
              with
              | inl e => (Next (StoreError e), st)
              | inr (transaction, ledger) =>
                  (* Update subscription status to active if needed *)
                  let subs :=
                    if negb (SubscriptionModel.status_eqb
                               (SubscriptionModel.status s)
                               SubscriptionModel.active)
                    then
                      SubscriptionModel.save
                        {| SubscriptionModel._id := SubscriptionModel._id subscription;
                           SubscriptionModel.doc :=
                             SubscriptionModel.set_status
                               SubscriptionModel.active s |}
                        (subscriptions st)
                    else subscriptions st in
                  (Success201 transaction,
                   {| subscriptions := subs; transactions := ledger |})
              end
          end
      end
  end.

End SubscriptionController.

(** ** Sample data for the worked instances *)

Module Samples.
Import SubscriptionPlanModel SubscriptionModel.

(** price 100, one month, four sessions *)
Definition monthly4 : SubscriptionPlan :=
  {| name := "Monthly"; duration := {| value := 1; unit := months |};
     price := {| amount := 100; SubscriptionPlanModel.currency := "USD" |};
     SubscriptionPlanModel.isActive := true;
     maxSessions := Some 4; allowedCoachSessions := 0 |}.

Definition monthly0 : SubscriptionPlan :=
  {| name := "Monthly, no sessions"; duration := {| value := 1; unit := months |};
     price := {| amount := 100; SubscriptionPlanModel.currency := "USD" |};
     SubscriptionPlanModel.isActive := true;
     maxSessions := Some 0; allowedCoachSessions := 0 |}.

Definition plans : list SubscriptionPlan := [monthly4; monthly0].

(** A subscription to [monthly4] from 2024-01-15 to 2024-02-15 with the
    given status and balance. *)
Definition sub (st : Status) (sessions : option Z) : Subscription :=
  {| student := 0; plan := 0; startDate := Some (ymd 2024 1 15);
     endDate := Some (ymd 2024 2 15); status := st; autoRenew := false;
     paymentMethod := cash; paymentStatus := paid; amountPaid := 100;
     currency := "USD"; invoiceId := None; remainingSessions := sessions;
     notes := None; cancelledAt := None; cancelReason := None |}.

(** A new subscription as [new Subscription(...)] holds it before the
    first save. *)
Definition fresh (planId : nat) (end_ : option Date) : Subscription :=
  {| student := 0; plan := planId; startDate := Some (ymd 2024 1 15);
     endDate := end_; status := pending; autoRenew := false;
     paymentMethod := cash; paymentStatus := paymentPending; amountPaid := 100;
     currency := "USD"; invoiceId := None; remainingSessions := None;
     notes := None; cancelledAt := None; cancelReason := None |}.

Definition loaded (s : Subscription) : Document := {| _id := 0; doc := s |}.

End Samples.

Module LedgerSamples.
Import TransactionModel.

(** A payment of 100 with the given status. *)
Definition payment100 (st : Status) : Transaction :=
  {| student := 0; subscription := 0; transactionId := Some "TRX-1-1";
     type := payment; amount := 100; currency := "USD";
     paymentMethod := cash; paymentGateway := manual; status := st;
     notes := None; refundedTransaction := None; invoiceId := None;
     invoiceUrl := None; receiptUrl := None |}.

Definition clock : Env := {| timestamp := 1705276800000; randomNum := 42 |}.

(** What a client hands to [Transaction.create] for [payment100]. *)
Definition candidate100 (st : Status) : Candidate :=
  {| c_student := Some 0%nat; c_subscription := Some 0%nat;
     c_transactionId := Some "TRX-1-1"; c_type := Some payment;
     c_amount := Some (Amount 100); c_currency := None;
     c_paymentMethod := Some cash; c_paymentGateway := None;
     c_status := Some st; c_notes := None; c_refundedTransaction := None |}.

End LedgerSamples.

Module RequestSamples.

(** One profile, of user 7. *)
Definition students : list StudentProfile := [ {| user := Some 7%nat |} ].

Definition alice : User := {| id := 7; role := student |}.
Definition root : User := {| id := 1; role := admin |}.

Definition subscriptionBody : StudentController.Body :=
  {| StudentController.body_plan := Some 0%nat;
     StudentController.body_startDate := Some (ymd 2024 1 15);
     StudentController.body_autoRenew := None;
     StudentController.body_paymentMethod := Some cash;
     StudentController.body_paymentStatus := None;
     StudentController.body_amountPaid := Some 100;
     StudentController.body_currency := None;
     StudentController.body_invoiceId := None;
     StudentController.body_remainingSessions := None;
     StudentController.body_notes := None |}.

(** POST /students/0/subscriptions by the given user: plan 0 from
    2024-01-15. *)
Definition subscribe (u : User) : StudentController.Request :=
  {| StudentController.params_id := 0;
     StudentController.req_user := u;
     StudentController.body := subscriptionBody |}.

(** What the controller stores for [subscribe]. *)
Definition stored : SubscriptionModel.Subscription :=
  {| SubscriptionModel.student := 0; SubscriptionModel.plan := 0;
     SubscriptionModel.startDate := Some (ymd 2024 1 15);
     SubscriptionModel.endDate := Some (ymd 2024 1 15);
     SubscriptionModel.status := SubscriptionModel.active;
     SubscriptionModel.autoRenew := false;
     SubscriptionModel.paymentMethod := cash;
     SubscriptionModel.paymentStatus := SubscriptionModel.paymentPending;
     SubscriptionModel.amountPaid := 100;
     SubscriptionModel.currency := "USD";
     SubscriptionModel.invoiceId := None;
     SubscriptionModel.remainingSessions := None;
     SubscriptionModel.notes := None;
     SubscriptionModel.cancelledAt := None;
     SubscriptionModel.cancelReason := None |}.

(** POST /subscriptions/transactions/0 by the given user: a cash payment
    with its own transaction id. *)
Definition pay (u : User) : SubscriptionController.Request :=
  {| SubscriptionController.params_subscriptionId := 0;
     SubscriptionController.req_user := u;
     SubscriptionController.body :=
       {| SubscriptionController.body_student := Some 0%nat;
          SubscriptionController.body_transactionId := Some "TRX-9-9";
          SubscriptionController.body_type := Some TransactionModel.payment;
          SubscriptionController.body_currency := None;
          SubscriptionController.body_paymentMethod := Some cash;
          SubscriptionController.body_paymentGateway := None;
          SubscriptionController.body_notes := None;
          SubscriptionController.body_refundedTransaction := None |} |}.

(** A store holding one subscription, of the given status, and no
    transactions. *)
Definition store (st : SubscriptionModel.Status) : SubscriptionController.Store :=
  {| SubscriptionController.subscriptions := [Samples.sub st (Some 4)];
     SubscriptionController.transactions := [] |}.

End RequestSamples.

(** ** models/subscriptionModel.js: the [daysRemaining] virtual *)

Module SubscriptionVirtuals.
Import SubscriptionModel.

(** [Math.ceil(a / b)] for integers [a] and a positive [b].  The quotient
    of the source is a floating-point one; for time differences below 2^53
    milliseconds its ceiling is the exact one. *)
Definition ceilDiv (a b : Z) : Z := - ((- a) / b).

(** Virtual [daysRemaining].  [None]: the document has no end date and the
    getter yields NaN. *)
Definition daysRemaining (now : Date) (this : Subscription) : option Z :=
  if negb (status_eqb (status this) active) then Some 0
  else
    match endDate this with
    | None => None
    | Some e =>
        if now >? e then Some 0
        else
          let diffTime := Z.abs (e - now) in
          Some (ceilDiv diffTime (1000 * 60 * 60 * 24))
    end.

(** [canBeRenewed] called [n] times in a row on the same document: the
    answers in call order and the document afterwards; [None] when a call
    throws. *)
Fixpoint canBeRenewedTimes (n : nat) (now : Date) (this : Subscription)
  : option (list bool * Subscription) :=
  match n with
  | O => Some ([], this)
  | S k =>
      match canBeRenewed now this with
      | None => None
      | Some (b, this1) =>
          match canBeRenewedTimes k now this1 with
          | None => None
          | Some (bs, this2) => Some (b :: bs, this2)
          end
      end
  end.

End SubscriptionVirtuals.

(** ** models/subscriptionPlanModel.js: discount codes *)

Module Discounts.

Record Discount := {
  code : option string;
  percentage : option Z;
  validUntil : option Date;
  maxUses : option Z;
  currentUses : Z                   (* default 0 *)
}.

(** [isDiscountValid(code)], as a function of the plan's [discounts], the
    only field of the plan it reads, and of the clock. *)
Definition isDiscountValid (now : Date) (discounts : list Discount)
    (c : option string) : bool :=
  match discounts with
  | [] => false
  | _ =>
      match List.find (fun d => bool_decide (code d = c)) discounts with
      | None => false
      | Some discount =>
          (* Check if discount is expired *)
          if match validUntil discount with
             | Some v => now >? v
             | None => false
             end
          then false
          (* Check if max uses reached *)
          else if match maxUses discount with
                  | Some m => negb (m =? 0) && (currentUses discount >=? m)
                  | None => false
                  end
          then false
          else true
      end
  end.

(** What [isDiscountValid] asks of the discount it has found. *)
Definition usable (now : Date) (d : Discount) : Prop :=
  (forall v, validUntil d = Some v -> now <= v)
  /\ (forall m, maxUses d = Some m -> m <> 0 -> currentUses d < m).

End Discounts.

(** ** models/transactionModel.js: generateInvoice *)

Module Invoicing.
Import TransactionModel.

Definition set_invoice (i u : option string) (t : Transaction) : Transaction :=
  {| student := student t; subscription := subscription t;
     transactionId := transactionId t; type := type t; amount := amount t;
     currency := currency t; paymentMethod := paymentMethod t;
     paymentGateway := paymentGateway t; status := status t; notes := notes t;
     refundedTransaction := refundedTransaction t;
     invoiceId := i; invoiceUrl := u;
     receiptUrl := receiptUrl t |}.

Record Invoice := { inv_invoiceId : string; inv_invoiceUrl : string }.

(** [generateInvoice(transactionId)]: the identifiers returned or the error
    thrown, and the ledger afterwards. *)
Definition generateInvoice (tid : string) (db : Ledger)
  : (Error + Invoice) * Ledger :=
  match findOne tid db with
  | None => (inl TransactionNotFound, db)
  | Some transaction =>
      let invoiceId :=
        "INV-" +:+ default "undefined" (transactionId (doc transaction)) in
      let invoiceUrl := "/invoices/" +:+ invoiceId in
      let transaction' :=
        {| _id := _id transaction;
           doc := set_invoice (Some invoiceId) (Some invoiceUrl)
                    (doc transaction) |} in
      (inr {| inv_invoiceId := invoiceId; inv_invoiceUrl := invoiceUrl |},
       save transaction' db)
  end.

End Invoicing.

(** ** The subscription controller: deletePlan and deleteSubscription *)

Module Deletion.
Import SubscriptionPlanModel.

Inductive Failure := TypeError.

Inductive Response :=
| Fail404 (message : string)
| Fail400 (message : string)
| Success204
| Next (error : Failure).

(** [Subscription.countDocuments({ plan, status: 'active' })] *)
Definition activeSubscriptions (planId : nat)
    (subs : list SubscriptionModel.Subscription) : nat :=
  length
    (filter
       (fun s => Nat.eqb (SubscriptionModel.plan s) planId
                 && SubscriptionModel.status_eqb (SubscriptionModel.status s)
                      SubscriptionModel.active
                 = true)
       subs).

(** The collection removed from is a finite map from [_id] to document.
    [plan.remove()]: a document has no [remove] in the driver the package
    declares (mongoose ^8.0.3), so the call throws and the 204 below it is
    not reached. *)
Definition deletePlan (plans : gmap nat SubscriptionPlan)
    (subs : list SubscriptionModel.Subscription) (id : nat)
  : Response * gmap nat SubscriptionPlan :=
  match plans !! id with
  | None => (Fail404 "Subscription plan not found", plans)
  | Some plan =>
      let n := activeSubscriptions id subs in
      if (0 <? n)%nat then
        (Fail400 ("This plan cannot be deleted because it has " +:+ pretty n
                  +:+ " active subscriptions"), plans)
      else (Next TypeError, plans)
  end.

(** [Transaction.countDocuments({ subscription, status: { $ne: 'refunded' } })] *)
Definition activeTransactions (subscriptionId : nat)
    (ledger : list TransactionModel.Transaction) : nat :=
  length
    (filter
       (fun t => Nat.eqb (TransactionModel.subscription t) subscriptionId
                 && negb (TransactionModel.status_eqb (TransactionModel.status t)
                            TransactionModel.refunded)
                 = true)
       ledger).

Definition deleteSubscription
    (subs : gmap nat SubscriptionModel.Subscription)
    (ledger : list TransactionModel.Transaction) (id : nat)
  : Response * gmap nat SubscriptionModel.Subscription :=
  match subs !! id with
  | None => (Fail404 "Subscription not found", subs)
  | Some subscription =>
      let n := activeTransactions id ledger in
      if (0 <? n)%nat then
        (Fail400 ("This subscription has " +:+ pretty n
                  +:+ " active transactions and cannot be deleted"), subs)
      else (Next TypeError, subs)   (* [subscription.remove()], as above *)
  end.

End Deletion.

(** * Properties *)

(** ** Date arithmetic *)

Module JsDateFacts.

Example ymd_2024_01_15 : ymd 2024 1 15 = 1705276800000.
Proof. reflexivity. Qed.

Example parts_2024_01_15 :
  (getFullYear (ymd 2024 1 15), getMonth (ymd 2024 1 15), getDate (ymd 2024 1 15))
  = (2024, 0, 15).
Proof. vm_compute. reflexivity. Qed.

Example parts_before_epoch :
  (getFullYear (-1), getMonth (-1), getDate (-1)) = (1969, 11, 31).
Proof. vm_compute. reflexivity. Qed.

Example parts_leap_day :
  (getFullYear (ymd 2000 2 29), getMonth (ymd 2000 2 29), getDate (ymd 2000 2 29))
  = (2000, 1, 29).
Proof. vm_compute. reflexivity. Qed.

Example setMonth_carries_days : setMonth (ymd 2023 1 31) 1 = ymd 2023 3 3.
Proof. vm_compute. reflexivity. Qed.

(** [yearOfDay d] is the year whose days include [d], as ECMAScript defines
    YearFromTime. *)
Lemma yearOfDay_spec d :
  DayFromYear (yearOfDay d) <= d < DayFromYear (yearOfDay d + 1).
Proof.
  unfold yearOfDay, DayFromYear. cbv zeta.
  match goal with
  | |- context [if ?c then _ else _] => destruct c eqn:E
  end;
    [apply Z.ltb_lt in E | apply Z.ltb_ge in E];
    revert E; Z.div_mod_to_equations; lia.
Qed.

Lemma monthOfDayInYear_range leap d : 0 <= monthOfDayInYear leap d <= 11.
Proof.
  unfold monthOfDayInYear.
  repeat match goal with
         | |- context [if ?c then _ else _] => destruct c
         end; lia.
Qed.

Lemma MonthFromTime_range t : 0 <= MonthFromTime t <= 11.
Proof. apply monthOfDayInYear_range. Qed.

(** Year, month and date of [t] name the day of [t], and a date beyond the
    month counts on in days. *)
Lemma MakeDay_parts t k :
  MakeDay (YearFromTime t) (MonthFromTime t) (DateFromTime t + k) = Day t + k.
Proof.
  pose proof (MonthFromTime_range t) as Hm.
  unfold MakeDay. cbv zeta.
  rewrite (Z.div_small (MonthFromTime t) 12) by lia.
  rewrite (Z.mod_small (MonthFromTime t) 12) by lia.
  rewrite Z.add_0_r.
  unfold DateFromTime, DayWithinYear. lia.
Qed.

Lemma MakeDate_parts t : MakeDate (Day t) (TimeWithinDay t) = t.
Proof.
  unfold MakeDate, Day, TimeWithinDay, msPerDay.
  Z.div_mod_to_equations; lia.
Qed.

(** [d.setDate(d.getDate() + k)] moves [d] by [k] whole days. *)
Lemma setDate_getDate t k : setDate t (getDate t + k) = t + k * msPerDay.
Proof.
  unfold setDate, getDate. rewrite MakeDay_parts.
  pose proof (MakeDate_parts t) as H. unfold MakeDate in *. lia.
Qed.

Lemma setDate_getDate_sub t k : setDate t (getDate t - k) = t - k * msPerDay.
Proof.
  replace (getDate t - k) with (getDate t + - k) by lia.
  rewrite setDate_getDate. lia.
Qed.

(** *** Calendar reading of setMonth and setFullYear *)

Lemma DayFromYear_next y : DayFromYear y + 365 <= DayFromYear (y + 1).
Proof. unfold DayFromYear. Z.div_mod_to_equations. lia. Qed.

Lemma DayFromYear_succ y : DayFromYear (y + 1) = DayFromYear y + DaysInYear y.
Proof.
  unfold DayFromYear, DaysInYear, isLeapYear.
  destruct (Z.eqb_spec (y mod 4) 0), (Z.eqb_spec (y mod 100) 0),
    (Z.eqb_spec (y mod 400) 0); simpl; Z.div_mod_to_equations; lia.
Qed.

Lemma DayFromYear_mono a b : a <= b -> DayFromYear a <= DayFromYear b.
Proof. unfold DayFromYear. intros H. Z.div_mod_to_equations. lia. Qed.

Lemma yearOfDay_unique y d :
  DayFromYear y <= d < DayFromYear (y + 1) -> yearOfDay d = y.
Proof.
  intros Hy. pose proof (yearOfDay_spec d) as Hs.
  destruct (Z.lt_trichotomy (yearOfDay d) y) as [Hlt | [Heq | Hgt]];
    [|exact Heq|].
  - pose proof (DayFromYear_mono (yearOfDay d + 1) y). lia.
  - pose proof (DayFromYear_mono (y + 1) (yearOfDay d)). lia.
Qed.

Lemma Day_MakeDate d time :
  0 <= time < msPerDay ->
  Day (MakeDate d time) = d /\ TimeWithinDay (MakeDate d time) = time.
Proof.
  unfold Day, TimeWithinDay, MakeDate, msPerDay. intros H.
  Z.div_mod_to_equations. lia.
Qed.

Lemma TimeWithinDay_range t : 0 <= TimeWithinDay t < msPerDay.
Proof. unfold TimeWithinDay, msPerDay. Z.div_mod_to_equations. lia. Qed.

Lemma month_cases m :
  0 <= m <= 11 ->
  m = 0 \/ m = 1 \/ m = 2 \/ m = 3 \/ m = 4 \/ m = 5 \/ m = 6 \/ m = 7
  \/ m = 8 \/ m = 9 \/ m = 10 \/ m = 11.
Proof. lia. Qed.

Lemma monthOfDayInYear_start leap m d :
  0 <= m <= 11 -> 1 <= d <= daysInMonth leap m ->
  monthOfDayInYear leap (monthStart leap m + d - 1) = m.
Proof.
  intros Hm Hd. apply month_cases in Hm.
  repeat (destruct Hm as [-> | Hm]); try subst m;
    destruct leap; unfold daysInMonth, monthStart in Hd; simpl in Hd;
    unfold monthOfDayInYear, monthStart; simpl;
    repeat match goal with
           | |- context [?a <? ?b] => destruct (Z.ltb_spec a b)
           end; try reflexivity; lia.
Qed.

Lemma monthStart_within_year leap m d :
  0 <= m <= 11 -> 1 <= d <= daysInMonth leap m ->
  0 <= monthStart leap m + d - 1 < (if leap then 366 else 365).
Proof.
  intros Hm Hd. apply month_cases in Hm.
  repeat (destruct Hm as [-> | Hm]); try subst m;
    destruct leap; unfold daysInMonth, monthStart in *; simpl in *; lia.
Qed.

(** A day of the month that exists in the month asked for is reached as
    such: MakeDay and MakeDate name the day whose year, month and date
    are the ones given. *)
Lemma MakeDay_calendar y m d time :
  1 <= d <= daysInMonth (isLeapYear (y + m / 12)) (m mod 12) ->
  0 <= time < msPerDay ->
  YearFromTime (MakeDate (MakeDay y m d) time) = y + m / 12
  /\ MonthFromTime (MakeDate (MakeDay y m d) time) = m mod 12
  /\ DateFromTime (MakeDate (MakeDay y m d) time) = d
  /\ TimeWithinDay (MakeDate (MakeDay y m d) time) = time.
Proof.
  intros Hd Htime.
  assert (Hmn : 0 <= m mod 12 <= 11) by (Z.div_mod_to_equations; lia).
  pose proof (monthStart_within_year _ _ _ Hmn Hd) as Hk.
  destruct (Day_MakeDate (MakeDay y m d) time Htime) as [Hday Htwd].
  assert (Hyear : YearFromTime (MakeDate (MakeDay y m d) time) = y + m / 12).
  { unfold YearFromTime. rewrite Hday. apply yearOfDay_unique.
    rewrite DayFromYear_succ. unfold MakeDay, DaysInYear. cbv zeta.
    destruct (isLeapYear (y + m / 12)); lia. }
  assert (Hdwy : DayWithinYear (MakeDate (MakeDay y m d) time)
                 = monthStart (isLeapYear (y + m / 12)) (m mod 12) + d - 1).
  { unfold DayWithinYear. rewrite Hyear, Hday. unfold MakeDay. lia. }
  assert (Hmonth : MonthFromTime (MakeDate (MakeDay y m d) time) = m mod 12).
  { unfold MonthFromTime. rewrite Hyear, Hdwy.
    apply monthOfDayInYear_start; assumption. }
  repeat split; try assumption.
  unfold DateFromTime. rewrite Hmonth, Hyear, Hdwy. lia.
Qed.

(** [d.setMonth(d.getMonth() + k)]: the same day of the month and time of
    day, [k] months on, when the month reached has that day. *)
Lemma setMonth_getMonth t k :
  1 <= getDate t
       <= daysInMonth (isLeapYear (getFullYear t + (getMonth t + k) / 12))
            ((getMonth t + k) mod 12) ->
  getFullYear (setMonth t (getMonth t + k))
  = getFullYear t + (getMonth t + k) / 12
  /\ getMonth (setMonth t (getMonth t + k)) = (getMonth t + k) mod 12
  /\ getDate (setMonth t (getMonth t + k)) = getDate t
  /\ TimeWithinDay (setMonth t (getMonth t + k)) = TimeWithinDay t.
Proof.
  intros Hd. unfold getFullYear, getMonth, getDate, setMonth in *.
  apply MakeDay_calendar; [exact Hd | apply TimeWithinDay_range].
Qed.

(** [d.setFullYear(d.getFullYear() + k)]: the same month, day and time of
    day, [k] years on, when that year has the day (29 February may not). *)
Lemma setFullYear_getFullYear t k :
  1 <= getDate t <= daysInMonth (isLeapYear (getFullYear t + k)) (getMonth t) ->
  getFullYear (setFullYear t (getFullYear t + k)) = getFullYear t + k
  /\ getMonth (setFullYear t (getFullYear t + k)) = getMonth t
  /\ getDate (setFullYear t (getFullYear t + k)) = getDate t
  /\ TimeWithinDay (setFullYear t (getFullYear t + k)) = TimeWithinDay t.
Proof.
  intros Hd. unfold getFullYear, getMonth, getDate, setFullYear in *.
  pose proof (MonthFromTime_range t) as Hm.
  pose proof (MakeDay_calendar (YearFromTime t + k) (MonthFromTime t)
                (DateFromTime t) (TimeWithinDay t)) as H.
  rewrite (Z.div_small (MonthFromTime t) 12) in H by lia.
  rewrite (Z.mod_small (MonthFromTime t) 12) in H by lia.
  rewrite Z.add_0_r in H.
  apply H; [exact Hd | apply TimeWithinDay_range].
Qed.

End JsDateFacts.

(** ** Entitlement consumption *)

Module SubscriptionFacts.
Import SubscriptionPlanModel SubscriptionModel JsDateFacts.

Lemma remainingSessions_set r s :
  remainingSessions (set_remainingSessions r s) = r.
Proof. reflexivity. Qed.

Lemma status_set_remainingSessions r s :
  status (set_remainingSessions r s) = status s.
Proof. reflexivity. Qed.

Lemma deductSession_id this db :
  _id (deductSession this db).1.2 = _id this.
Proof.
  unfold deductSession.
  destruct (remainingSessions (doc this)) as [n|]; [|reflexivity].
  destruct (n <=? 0); reflexivity.
Qed.

Lemma deductSession_unlimited this db :
  remainingSessions (doc this) = None ->
  deductSession this db = (true, this, db).
Proof. unfold deductSession. intros ->. reflexivity. Qed.

Lemma deductSession_exhausted this db n :
  remainingSessions (doc this) = Some n -> n <= 0 ->
  deductSession this db = (false, this, db).
Proof.
  unfold deductSession. intros -> Hn.
  destruct (Z.leb_spec n 0); [reflexivity | lia].
Qed.

Lemma deductSession_decrements this db n :
  remainingSessions (doc this) = Some n -> 0 < n ->
  deductSession this db
  = (true,
     {| _id := _id this;
        doc := set_remainingSessions (Some (n - 1)) (doc this) |},
     <[_id this := set_remainingSessions (Some (n - 1)) (doc this)]> db).
Proof.
  unfold deductSession. intros -> Hn.
  destruct (Z.leb_spec n 0); [lia | reflexivity].
Qed.

(** A successful call on a counted subscription found [n > 0] and left
    [n - 1], in memory and in the collection. *)
Lemma deductSession_true this db n this' db' :
  remainingSessions (doc this) = Some n ->
  deductSession this db = (true, this', db') ->
  0 < n /\ remainingSessions (doc this') = Some (n - 1)
  /\ _id this' = _id this /\ db' = <[_id this := doc this']> db.
Proof.
  unfold deductSession. intros ->.
  destruct (Z.leb_spec n 0); [discriminate|].
  intros [= <- <-]. repeat split; try reflexivity; lia.
Qed.

Lemma deductSessions_all_true N : forall this db initial rs this' db',
  remainingSessions (doc this) = Some initial ->
  deductSessions N this db = (rs, this', db') ->
  Forall (fun r => r = true) rs ->
  remainingSessions (doc this') = Some (initial - Z.of_nat N)
  /\ _id this' = _id this
  /\ (db !! _id this = Some (doc this) -> db' !! _id this = Some (doc this')).
Proof.
  induction N as [|N IH]; intros this db initial rs this' db' Hrem Hrun Hall.
  - simpl in Hrun. injection Hrun as <- <- <-.
    rewrite Hrem. repeat split; [f_equal; lia | auto].
  - simpl in Hrun.
    destruct (deductSession this db) as [[r this1] db1] eqn:H1.
    destruct (deductSessions N this1 db1) as [[rs' this2] db2] eqn:H2.
    injection Hrun as <- <- <-.
    inversion Hall as [|? ? Hr Hrs]; subst.
    destruct (deductSession_true _ _ _ _ _ Hrem H1) as (Hpos & Hrem1 & Hid & Hdb).
    destruct (IH _ _ _ _ _ _ Hrem1 H2 Hrs) as (Hfin & Hid2 & Hst).
    repeat split.
    + rewrite Hfin. f_equal. lia.
    + congruence.
    + intros Hin. rewrite <- Hid. apply Hst. rewrite Hid, Hdb.
      apply list_lookup_insert_eq. apply lookup_lt_Some in Hin. exact Hin.
Qed.

(** C1. [deductSession] does nothing and succeeds when remainingSessions is
    null; fails (the EntitlementExhausted outcome, [false]) and changes
    nothing when remainingSessions <= 0; otherwise succeeds and lowers
    remainingSessions by exactly 1, in memory and in the store.  After N
    calls that all succeeded, remainingSessions is the initial value
    minus N. *)
Theorem deductSession_contract (this : Document) (db : Collection) :
  (remainingSessions (doc this) = None ->
     deductSession this db = (true, this, db))
  /\ (forall n, remainingSessions (doc this) = Some n -> n <= 0 ->
        deductSession this db = (false, this, db))
  /\ (forall n, remainingSessions (doc this) = Some n -> 0 < n ->
        deductSession this db
        = (true,
           {| _id := _id this;
              doc := set_remainingSessions (Some (n - 1)) (doc this) |},
           <[_id this := set_remainingSessions (Some (n - 1)) (doc this)]> db))
  /\ (forall (N : nat) initial rs this' db',
        remainingSessions (doc this) = Some initial ->
        deductSessions N this db = (rs, this', db') ->
        Forall (fun r => r = true) rs ->
        remainingSessions (doc this') = Some (initial - Z.of_nat N)
        /\ (db !! _id this = Some (doc this) ->
            remainingSessions <$> db' !! _id this
            = Some (Some (initial - Z.of_nat N)))).
Proof.
  repeat split.
  - apply deductSession_unlimited.
  - intros n. apply deductSession_exhausted.
  - intros n. apply deductSession_decrements.
  - eapply deductSessions_all_true; eauto.
  - intros Hin.
    match goal with
    | Hrem : remainingSessions _ = Some _, Hrun : deductSessions _ _ _ = _,
      Hall : Forall _ _ |- _ =>
        destruct (deductSessions_all_true _ _ _ _ _ _ _ Hrem Hrun Hall)
          as (Hfin & _ & Hst)
    end.
    rewrite (Hst Hin). simpl. rewrite Hfin. reflexivity.
Qed.

Lemma deductSession_contract_witness :
  deductSession (Samples.loaded (Samples.sub active None))
    [Samples.sub active None]
  = (true, Samples.loaded (Samples.sub active None), [Samples.sub active None])
  /\ deductSession (Samples.loaded (Samples.sub active (Some 0)))
       [Samples.sub active (Some 0)]
     = (false, Samples.loaded (Samples.sub active (Some 0)),
        [Samples.sub active (Some 0)])
  /\ deductSession (Samples.loaded (Samples.sub active (Some 4)))
       [Samples.sub active (Some 4)]
     = (true, Samples.loaded (Samples.sub active (Some 3)),
        [Samples.sub active (Some 3)])
  /\ remainingSessions
       <$> (deductSessions 4 (Samples.loaded (Samples.sub active (Some 4)))
              [Samples.sub active (Some 4)]).2 !! 0%nat
     = Some (Some 0).
Proof.
  split; [|split; [|split]].
  - apply (deductSession_contract
             (Samples.loaded (Samples.sub active None))
             [Samples.sub active None]).
    reflexivity.
  - apply (proj1 (proj2 (deductSession_contract
             (Samples.loaded (Samples.sub active (Some 0)))
             [Samples.sub active (Some 0)])) 0); [reflexivity | lia].
  - apply (proj1 (proj2 (proj2 (deductSession_contract
             (Samples.loaded (Samples.sub active (Some 4)))
             [Samples.sub active (Some 4)]))) 4); [reflexivity | lia].
  - apply (proj2 (proj2 (proj2 (proj2 (deductSession_contract
             (Samples.loaded (Samples.sub active (Some 4)))
             [Samples.sub active (Some 4)]))) 4%nat 4
             [true; true; true; true] _ _ eq_refl eq_refl
             ltac:(repeat constructor))).
    reflexivity.
Defined.

(** [deductSession] never reads the status. *)
Lemma deductSession_status_blind st this db :
  (deductSession {| _id := _id this; doc := set_status st (doc this) |} db).1.1
  = (deductSession this db).1.1.
Proof.
  unfold deductSession. simpl.
  destruct (remainingSessions (doc this)) as [n|]; [|reflexivity].
  destruct (n <=? 0); reflexivity.
Qed.

Lemma deductSession_keeps_status this db :
  status (doc (deductSession this db).1.2) = status (doc this).
Proof.
  unfold deductSession.
  destruct (remainingSessions (doc this)) as [n|]; [|reflexivity].
  destruct (n <=? 0); reflexivity.
Qed.

(** C3, as the code has it.  A cancelled or expired subscription is never
    active, whatever the time, so a caller that deducts only from active
    subscriptions never decrements it.  [deductSession] itself does not
    look at the status: its outcome is the one it has under any other
    status, so with remainingSessions > 0 it succeeds and decrements by 1,
    and it is rejected only when remainingSessions <= 0.  It leaves the
    status as it was. *)
Theorem cancelled_or_expired_entitlement (now : Date) (this : Document)
    (db : Collection) :
  status (doc this) = cancelled \/ status (doc this) = expired ->
  isActive now (doc this) = false
  /\ (forall st,
        (deductSession {| _id := _id this; doc := set_status st (doc this) |} db).1.1
        = (deductSession this db).1.1)
  /\ (forall n, remainingSessions (doc this) = Some n -> 0 < n ->
        deductSession this db
        = (true,
           {| _id := _id this;
              doc := set_remainingSessions (Some (n - 1)) (doc this) |},
           <[_id this := set_remainingSessions (Some (n - 1)) (doc this)]> db))
  /\ (forall n, remainingSessions (doc this) = Some n -> n <= 0 ->
        deductSession this db = (false, this, db))
  /\ status (doc (deductSession this db).1.2) = status (doc this).
Proof.
  intros Hst. split; [|split; [|split; [|split]]].
  - unfold isActive. destruct Hst as [-> | ->]; reflexivity.
  - intros st. apply deductSession_status_blind.
  - intros n. apply deductSession_decrements.
  - intros n. apply deductSession_exhausted.
  - apply deductSession_keeps_status.
Qed.

Lemma cancelled_or_expired_entitlement_witness :
  isActive (ymd 2024 2 1) (Samples.sub cancelled (Some 3)) = false
  /\ deductSession (Samples.loaded (Samples.sub cancelled (Some 3)))
       [Samples.sub cancelled (Some 3)]
     = (true, Samples.loaded (Samples.sub cancelled (Some 2)),
        [Samples.sub cancelled (Some 2)]).
Proof.
  pose proof (cancelled_or_expired_entitlement (ymd 2024 2 1)
                (Samples.loaded (Samples.sub cancelled (Some 3)))
                [Samples.sub cancelled (Some 3)] (or_introl eq_refl))
    as (Hact & _ & Hdec & _).
  split; [exact Hact|].
  apply (Hdec 3); [reflexivity | lia].
Defined.

(** C3 as stated fails: a cancelled subscription with three sessions left
    is decremented to two by [deductSession], which reports success. *)
Lemma cancelled_deductSession_counterexample :
  status (doc (Samples.loaded (Samples.sub cancelled (Some 3)))) = cancelled
  /\ deductSession (Samples.loaded (Samples.sub cancelled (Some 3)))
       [Samples.sub cancelled (Some 3)]
     = (true, Samples.loaded (Samples.sub cancelled (Some 2)),
        [Samples.sub cancelled (Some 2)])
  /\ ~ (forall this db,
          status (doc this) = cancelled \/ status (doc this) = expired ->
          (deductSession this db).1.1 = false
          /\ remainingSessions (doc (deductSession this db).1.2)
             = remainingSessions (doc this)).
Proof.
  split; [reflexivity|]. split; [reflexivity|].
  intros H.
  destruct (H (Samples.loaded (Samples.sub cancelled (Some 3)))
              [Samples.sub cancelled (Some 3)] (or_introl eq_refl))
    as [Hres _].
  discriminate Hres.
Qed.

(** ** Cancellation *)

Lemma canBeCancelled_active this :
  canBeCancelled this = true <-> status this = active.
Proof.
  unfold canBeCancelled. destruct (status this); simpl; split;
    intros H; (reflexivity || discriminate H).
Qed.

(** C8, as the code has it.  [canBeCancelled] holds exactly when the
    status is 'active'.  A cancellation gated by it succeeds exactly then,
    setting status 'cancelled', cancelledAt and the reason and nothing
    else; for every other status, 'pending' included, it fails with
    InvalidStateError and changes nothing. *)
Theorem cancelSubscription_contract (now : Date) (reason : option string)
    (this : Document) (db : Collection) :
  (canBeCancelled (doc this) = true <-> status (doc this) = active)
  /\ (status (doc this) = active ->
      exists this',
        cancelSubscription now reason this db
        = (inr this', <[_id this := doc this']> db)
        /\ _id this' = _id this
        /\ doc this' = set_cancelled now reason (doc this)
        /\ status (doc this') = cancelled
        /\ cancelledAt (doc this') = Some now
        /\ cancelReason (doc this') = reason
        /\ remainingSessions (doc this') = remainingSessions (doc this)
        /\ endDate (doc this') = endDate (doc this))
  /\ (status (doc this) <> active ->
      cancelSubscription now reason this db = (inl InvalidStateError, db)).
Proof.
  split; [apply canBeCancelled_active|]. split.
  - intros Hst. eexists. unfold cancelSubscription, canBeCancelled.
    rewrite Hst. simpl. repeat split.
  - intros Hst. unfold cancelSubscription, canBeCancelled.
    destruct (status (doc this)); simpl; congruence.
Qed.

Lemma cancelSubscription_contract_witness :
  (exists this',
     cancelSubscription (ymd 2024 2 1) (Some "moved away")
       (Samples.loaded (Samples.sub active (Some 3)))
       [Samples.sub active (Some 3)]
     = (inr this', [doc this'])
     /\ status (doc this') = cancelled)
  /\ cancelSubscription (ymd 2024 2 1) (Some "moved away")
       (Samples.loaded (Samples.sub expired (Some 3)))
       [Samples.sub expired (Some 3)]
     = (inl InvalidStateError, [Samples.sub expired (Some 3)]).
Proof.
  split.
  - destruct (proj1 (proj2 (cancelSubscription_contract (ymd 2024 2 1)
                (Some "moved away")
                (Samples.loaded (Samples.sub active (Some 3)))
                [Samples.sub active (Some 3)])) eq_refl)
      as (this' & Hrun & _ & _ & Hst & _).
    exists this'. split; [exact Hrun | exact Hst].
  - apply (proj2 (proj2 (cancelSubscription_contract (ymd 2024 2 1)
                (Some "moved away")
                (Samples.loaded (Samples.sub expired (Some 3)))
                [Samples.sub expired (Some 3)]))).
    discriminate.
Defined.

(** C8 as stated fails: a pending subscription cannot be cancelled. *)
Lemma pending_cancel_counterexample :
  status (Samples.sub pending (Some 3)) = pending
  /\ canBeCancelled (Samples.sub pending (Some 3)) = false
  /\ cancelSubscription (ymd 2024 2 1) (Some "moved away")
       (Samples.loaded (Samples.sub pending (Some 3)))
       [Samples.sub pending (Some 3)]
     = (inl InvalidStateError, [Samples.sub pending (Some 3)]).
Proof. repeat split. Qed.

(** ** Renewal *)

Lemma renewable_status this :
  status_eqb (status this) active || status_eqb (status this) expired = true
  <-> status this = active \/ status this = expired.
Proof.
  destruct (status this); simpl; split; intros H;
    try (left; reflexivity); try (right; reflexivity);
    try reflexivity; try discriminate H;
    destruct H as [H | H]; discriminate H.
Qed.

(** C9, as the code has it.  On a subscription with an end date,
    [canBeRenewed] returns true if and only if the status is 'active' or
    'expired' and now is strictly later than endDate minus 30 days.  There
    is no upper bound: it returns true however long after endDate now
    lies. *)
Theorem canBeRenewed_contract (now : Date) (this : Subscription) (e : Date) :
  endDate this = Some e ->
  exists b this',
    canBeRenewed now this = Some (b, this')
    /\ (b = true <->
        (status this = active \/ status this = expired)
        /\ e - 30 * msPerDay < now)
    /\ ((status this = active \/ status this = expired) ->
        e + 30 * msPerDay < now -> b = true).
Proof.
  intros He. unfold canBeRenewed. rewrite He.
  rewrite setDate_getDate_sub.
  destruct (status_eqb (status this) active || status_eqb (status this) expired)
    eqn:Hst.
  - apply renewable_status in Hst.
    eexists _, _. split; [reflexivity|].
    rewrite Z.gtb_ltb, Z.ltb_lt. unfold msPerDay in *.
    repeat split; try tauto; try lia.
  - assert (Hn : ~ (status this = active \/ status this = expired)).
    { intros H. apply renewable_status in H. congruence. }
    eexists _, _. split; [reflexivity|].
    repeat split; try tauto; try discriminate.
Qed.

Lemma canBeRenewed_contract_witness :
  exists b this',
    canBeRenewed (ymd 2024 2 1) (Samples.sub active (Some 3)) = Some (b, this')
    /\ b = true.
Proof.
  destruct (canBeRenewed_contract (ymd 2024 2 1) (Samples.sub active (Some 3))
              (ymd 2024 2 15) eq_refl)
    as (b & this' & Hrun & Hb & _).
  exists b, this'. split; [exact Hrun|].
  apply Hb. split; [left; reflexivity | reflexivity].
Defined.

(** C9 as stated fails: sixty days after the end date an expired
    subscription still counts as renewable. *)
Lemma canBeRenewed_late_counterexample :
  ymd 2024 3 1 = ymd 2024 1 1 + 60 * msPerDay
  /\ fst <$> canBeRenewed (ymd 2024 3 1)
               (set_endDate (Some (ymd 2024 1 1)) (Samples.sub expired None))
     = Some true.
Proof. split; vm_compute; reflexivity. Qed.

(** ** The pre-save hook *)

Lemma preSave_not_new plans now this :
  preSave plans now false this = inr this.
Proof. reflexivity. Qed.

Lemma preSave_with_endDate plans now new this e :
  endDate this = Some e -> preSave plans now new this = inr this.
Proof.
  intros He. unfold preSave. rewrite He.
  rewrite bool_decide_eq_true_2 by eauto.
  rewrite andb_false_r. reflexivity.
Qed.

(** What the hook does when it runs its body. *)
Lemma preSave_derives plans now this p :
  endDate this = None -> plans !! plan this = Some p ->
  preSave plans now true this
  = inr (let this1 :=
           set_endDate
             (Some (addDuration (default now (startDate this)) (duration p)))
             this in
         if truthyNumber (maxSessions p)
         then set_remainingSessions (maxSessions p) this1
         else this1).
Proof.
  intros He Hp. unfold preSave. rewrite He, Hp.
  rewrite bool_decide_eq_false_2 by (intros [? ?]; discriminate).
  reflexivity.
Qed.

Lemma truthyNumber_spec n :
  truthyNumber n = true <-> n <> None /\ n <> Some 0.
Proof.
  destruct n as [z|]; simpl.
  - destruct (Z.eqb_spec z 0) as [-> | Hz]; simpl; split.
    + discriminate.
    + intros [_ H]. congruence.
    + intros _. split; congruence.
    + reflexivity.
  - split; [discriminate | intros [H _]; congruence].
Qed.

Lemma deductSessions_unlimited N this db :
  remainingSessions (doc this) = None ->
  deductSessions N this db = (replicate N true, this, db).
Proof.
  intros Hrem. induction N as [|N IH]; [reflexivity|].
  simpl. rewrite (deductSession_unlimited _ _ Hrem), IH. reflexivity.
Qed.

(** C10.  The hook copies the plan's maxSessions into remainingSessions
    only on a new subscription that carries no endDate and whose plan has
    a maxSessions that is neither null nor 0, and in that case it does.
    If an endDate is supplied, or the plan's maxSessions is 0,
    remainingSessions keeps its default null, and then any number of
    [deductSession] calls all succeed and change nothing. *)
Theorem preSave_remainingSessions (plans : list SubscriptionPlan) (now : Date)
    (new : bool) (this this' : Subscription) :
  preSave plans now new this = inr this' ->
  (remainingSessions this' <> remainingSessions this ->
     new = true /\ endDate this = None
     /\ exists p, plans !! plan this = Some p
                  /\ maxSessions p <> None /\ maxSessions p <> Some 0
                  /\ remainingSessions this' = maxSessions p)
  /\ (new = true -> endDate this = None ->
      forall p, plans !! plan this = Some p ->
                maxSessions p <> None -> maxSessions p <> Some 0 ->
                remainingSessions this' = maxSessions p)
  /\ (remainingSessions this = None ->
      is_Some (endDate this)
      \/ (exists p, plans !! plan this = Some p /\ maxSessions p = Some 0) ->
      remainingSessions this' = None
      /\ forall id db (N : nat),
           deductSessions N {| _id := id; doc := this' |} db
           = (replicate N true, {| _id := id; doc := this' |}, db)).
Proof.
  intros Hrun.
  assert (Hcases :
    this' = this
    \/ (new = true /\ endDate this = None
        /\ exists p, plans !! plan this = Some p
           /\ ((truthyNumber (maxSessions p) = true
                /\ remainingSessions this' = maxSessions p)
               \/ (truthyNumber (maxSessions p) = false
                   /\ remainingSessions this' = remainingSessions this)))).
  { destruct new; [|left; rewrite preSave_not_new in Hrun; congruence].
    destruct (endDate this) as [e|] eqn:He.
    { left. rewrite (preSave_with_endDate _ _ _ _ _ He) in Hrun. congruence. }
    destruct (plans !! plan this) as [p|] eqn:Hp.
    - right. rewrite (preSave_derives _ _ _ _ He Hp) in Hrun.
      injection Hrun as <-. repeat split. exists p. split; [reflexivity|].
      cbv zeta. destruct (truthyNumber (maxSessions p)); [left | right];
        split; reflexivity.
    - unfold preSave in Hrun. rewrite He, Hp in Hrun. simpl in Hrun.
      discriminate Hrun. }
  split; [|split].
  - intros Hne. destruct Hcases as [-> | (Hnew & He & p & Hp & Hms)];
      [congruence|].
    split; [exact Hnew|]. split; [exact He|]. exists p.
    destruct Hms as [[Ht Hr] | [_ Hr]]; [|congruence].
    apply truthyNumber_spec in Ht. tauto.
  - intros Hnew He p Hp Hn H0.
    rewrite Hnew, (preSave_derives _ _ _ _ He Hp) in Hrun.
    assert (Ht : truthyNumber (maxSessions p) = true)
      by (apply truthyNumber_spec; tauto).
    cbv zeta in Hrun. rewrite Ht in Hrun. injection Hrun as <-.
    reflexivity.
  - intros Hnull Hwhy.
    assert (Hrem : remainingSessions this' = None).
    { destruct Hcases as [-> | (_ & He & p & Hp & Hms)]; [exact Hnull|].
      destruct Hwhy as [[e He'] | (p' & Hp' & H0)]; [congruence|].
      assert (p' = p) by congruence. subst p'.
      destruct Hms as [[Ht _] | [_ Hr]]; [|congruence].
      rewrite H0 in Ht. discriminate Ht. }
    split; [exact Hrem|].
    intros id db N. apply deductSessions_unlimited. exact Hrem.
Qed.

Lemma preSave_remainingSessions_witness :
  (* a plan with four sessions, no end date supplied *)
  (exists this',
     preSave Samples.plans 0 true (Samples.fresh 0 None) = inr this'
     /\ remainingSessions this' = Some 4)
  (* the same plan, end date supplied *)
  /\ (exists this',
        preSave Samples.plans 0 true (Samples.fresh 0 (Some (ymd 2024 3 1)))
        = inr this'
        /\ remainingSessions this' = None
        /\ deductSessions 3 {| _id := 0; doc := this' |} [this']
           = ([true; true; true], {| _id := 0; doc := this' |}, [this']))
  (* a plan with maxSessions 0, no end date supplied *)
  /\ (exists this',
        preSave Samples.plans 0 true (Samples.fresh 1 None) = inr this'
        /\ remainingSessions this' = None
        /\ deductSessions 3 {| _id := 0; doc := this' |} [this']
           = ([true; true; true], {| _id := 0; doc := this' |}, [this'])).
Proof.
  split; [|split]; eexists; (split; [reflexivity|]).
  - apply (proj1 (proj2 (preSave_remainingSessions Samples.plans 0 true
             (Samples.fresh 0 None) _ eq_refl))
             eq_refl eq_refl Samples.monthly4 eq_refl);
      discriminate.
  - pose proof (proj2 (proj2 (preSave_remainingSessions Samples.plans 0 true
             (Samples.fresh 0 (Some (ymd 2024 3 1))) _ eq_refl))
             eq_refl (or_introl (ex_intro _ _ eq_refl))) as [Hrem Hrun].
    split; [exact Hrem | apply (Hrun 0%nat _ 3%nat)].
  - pose proof (proj2 (proj2 (preSave_remainingSessions Samples.plans 0 true
             (Samples.fresh 1 None) _ eq_refl))
             eq_refl
             (or_intror (ex_intro _ Samples.monthly0 (conj eq_refl eq_refl))))
      as [Hrem Hrun].
    split; [exact Hrem | apply (Hrun 0%nat _ 3%nat)].
Defined.

(** ** Concurrent callers *)

Lemma twoCallers_list :
  twoCallers
  = [ [Load 0; Deduct 0; Load 1; Deduct 1];
      [Load 0; Load 1; Deduct 0; Deduct 1];
      [Load 1; Load 0; Deduct 0; Deduct 1];
      [Load 0; Load 1; Deduct 1; Deduct 0];
      [Load 1; Load 0; Deduct 1; Deduct 0];
      [Load 1; Deduct 1; Load 0; Deduct 0] ]%nat.
Proof. vm_compute. reflexivity. Qed.

Lemma bounded_initial n id db s :
  db !! id = Some s -> remainingSessions s = Some n -> 0 <= n ->
  bounded n id (initial db).
Proof.
  intros Hs Hrem Hn. split.
  - exists s, n. simpl. repeat split; (assumption || lia).
  - intros c d H. simpl in H. rewrite lookup_empty in H. discriminate H.
Qed.

Lemma bounded_step n id w e : bounded n id w -> bounded n id (step id w e).
Proof.
  intros [(s & m & Hs & Hrem & Hm) Hloaded].
  destruct e as [c | c]; simpl.
  - unfold findById. rewrite Hs. simpl. split.
    + exists s, m. auto.
    + intros c' d. simpl. destruct (decide (c = c')) as [-> | Hne].
      * rewrite lookup_insert_eq. intros [= <-]. simpl. eauto.
      * rewrite lookup_insert_ne by exact Hne. apply Hloaded.
  - destruct (loaded w !! c) as [d|] eqn:Hd.
    2: { split; [exists s, m; auto | exact Hloaded]. }
    destruct (Hloaded _ _ Hd) as (Hid & k & Hk & Hkn).
    destruct (Z_le_gt_dec k 0) as [Hle | Hgt].
    + rewrite (deductSession_exhausted _ _ _ Hk Hle). split.
      * exists s, m. auto.
      * intros c' d'. simpl. destruct (decide (c = c')) as [-> | Hne].
        -- rewrite lookup_insert_eq. intros [= <-]. eauto.
        -- rewrite lookup_insert_ne by exact Hne. apply Hloaded.
    + rewrite (deductSession_decrements _ _ _ Hk) by lia. split.
      * exists (set_remainingSessions (Some (k - 1)) (doc d)), (k - 1).
        simpl. rewrite Hid. split; [|split; [reflexivity | lia]].
        apply list_lookup_insert_eq. apply lookup_lt_Some in Hs. exact Hs.
      * intros c' d'. simpl. destruct (decide (c = c')) as [-> | Hne].
        -- rewrite lookup_insert_eq. intros [= <-]. simpl.
           split; [exact Hid|]. exists (k - 1). split; [reflexivity | lia].
        -- rewrite lookup_insert_ne by exact Hne. apply Hloaded.
Qed.

Lemma bounded_run n id schedule : forall w,
  bounded n id w -> bounded n id (run id w schedule).
Proof.
  induction schedule as [|e schedule IH]; intros w Hw; [exact Hw|].
  simpl. apply IH, bounded_step, Hw.
Qed.

Lemma storedSessions_bounded n id w :
  bounded n id w -> exists m, storedSessions id w = Some (Some m) /\ 0 <= m <= n.
Proof.
  intros [(s & m & Hs & Hrem & Hm) _]. exists m.
  unfold storedSessions. rewrite Hs. simpl. rewrite Hrem. auto.
Qed.

(** The two-caller interleavings on a one-document collection whose
    balance is 1, computed. *)
Lemma two_callers_outcome (s : Subscription) (schedule : list Event) :
  remainingSessions s = Some 1 ->
  schedule ∈ twoCallers ->
  storedSessions 0 (run 0 (initial [s]) schedule) = Some (Some 0)
  /\ exists r0 r1,
       results (run 0 (initial [s]) schedule) !! 0%nat = Some r0
       /\ results (run 0 (initial [s]) schedule) !! 1%nat = Some r1
       /\ r0 || r1 = true
       /\ r0 && r1 = overlapping schedule.
Proof.
  intros Hrem Hin. rewrite twoCallers_list in Hin.
  destruct s; simpl in Hrem; subst.
  repeat (apply elem_of_cons in Hin; destruct Hin as [-> | Hin]);
    try (apply elem_of_nil in Hin; contradiction);
    (split; [vm_compute; reflexivity|]);
    [ exists true, false | exists true, true | exists true, true
    | exists true, true | exists true, true | exists false, true ];
    repeat split; vm_compute; reflexivity.
Qed.

(** C2, as the code has it.  [deductSession] checks and decrements the
    document the caller loaded and then saves it; it is not a conditional
    update of the stored value.  With remainingSessions = 1 and two
    callers, every interleaving ends with remainingSessions = 0 and at
    least one success; there is exactly one success and one failure when
    one caller finishes before the other loads, and two successes when
    both have loaded before either deducts.  Under any schedule of any
    callers the stored remainingSessions never goes below 0 nor above its
    initial value. *)
Theorem two_callers_last_session (s : Subscription) :
  remainingSessions s = Some 1 ->
  (forall schedule, schedule ∈ twoCallers ->
     storedSessions 0 (run 0 (initial [s]) schedule) = Some (Some 0)
     /\ exists r0 r1,
          results (run 0 (initial [s]) schedule) !! 0%nat = Some r0
          /\ results (run 0 (initial [s]) schedule) !! 1%nat = Some r1
          /\ r0 || r1 = true
          /\ (r0 && r1 = true <-> overlapping schedule = true))
  /\ (forall schedule : list Event,
        exists m, storedSessions 0 (run 0 (initial [s]) schedule) = Some (Some m)
                  /\ 0 <= m <= 1).
Proof.
  intros Hrem. split.
  - intros schedule Hin.
    destruct (two_callers_outcome s schedule Hrem Hin)
      as (Hst & r0 & r1 & H0 & H1 & Hor & Hand).
    split; [exact Hst|]. exists r0, r1. rewrite Hand. tauto.
  - intros schedule. apply storedSessions_bounded, bounded_run.
    apply (bounded_initial 1 0%nat [s] s); [reflexivity | exact Hrem | lia].
Qed.

Lemma two_callers_last_session_witness :
  storedSessions 0
    (run 0 (initial [Samples.sub active (Some 1)])
       [Load 0; Deduct 0; Load 1; Deduct 1]%nat)
  = Some (Some 0)
  /\ exists m,
       storedSessions 0
         (run 0 (initial [Samples.sub active (Some 1)])
            [Load 0; Load 1; Load 2; Deduct 2; Deduct 1; Deduct 0]%nat)
       = Some (Some m)
       /\ 0 <= m <= 1.
Proof.
  pose proof (two_callers_last_session (Samples.sub active (Some 1)) eq_refl)
    as [Htwo Hany].
  split.
  - apply (Htwo [Load 0; Deduct 0; Load 1; Deduct 1]%nat).
    rewrite twoCallers_list. apply elem_of_cons. left. reflexivity.
  - apply Hany.
Defined.

(** C2 as stated fails: when both callers load before either deducts, both
    calls succeed on the last session. *)
Lemma two_callers_both_succeed_counterexample :
  remainingSessions (Samples.sub active (Some 1)) = Some 1
  /\ results
       (run 0 (initial [Samples.sub active (Some 1)])
          [Load 0; Load 1; Deduct 0; Deduct 1]%nat) !! 0%nat
     = Some true
  /\ results
       (run 0 (initial [Samples.sub active (Some 1)])
          [Load 0; Load 1; Deduct 0; Deduct 1]%nat) !! 1%nat
     = Some true
  /\ storedSessions 0
       (run 0 (initial [Samples.sub active (Some 1)])
          [Load 0; Load 1; Deduct 0; Deduct 1]%nat)
     = Some (Some 0).
Proof. repeat split; vm_compute; reflexivity. Qed.

End SubscriptionFacts.

(** ** The transaction ledger *)

Module TransactionFacts.
Import TransactionModel.

Lemma status_eqb_eq a b : status_eqb a b = true <-> a = b.
Proof. destruct a, b; simpl; split; congruence. Qed.

Lemma findOne_Some tid db o :
  findOne tid db = Some o ->
  db !! _id o = Some (doc o)
  /\ transactionId (doc o) = Some tid
  /\ forall j y, db !! j = Some y -> (j < _id o)%nat ->
                 transactionId y <> Some tid.
Proof.
  unfold findOne. intros H.
  destruct (list_find _ db) as [[i x]|] eqn:Hf; [|discriminate H].
  simpl in H. injection H as <-. simpl.
  apply list_find_Some in Hf. exact Hf.
Qed.

Lemma findOne_intro tid db i x :
  db !! i = Some x -> transactionId x = Some tid ->
  (forall j y, db !! j = Some y -> (j < i)%nat -> transactionId y <> Some tid) ->
  findOne tid db = Some {| _id := i; doc := x |}.
Proof.
  intros Hx Ht Hfirst. unfold findOne.
  assert (Hf : list_find (fun t => transactionId t = Some tid) db = Some (i, x))
    by (apply list_find_Some; auto).
  rewrite Hf. reflexivity.
Qed.

(** *** Validation of a new row *)

(** A candidate that fails validation is not inserted, whatever else it
    carries. *)
Lemma create_invalid env c db e :
  e ∈ validate c ->
  create env c db = inl (ValidationFailed (validate c)).
Proof.
  intros He. unfold create.
  destruct (validate c) as [|e' errors]; [inversion He|].
  reflexivity.
Qed.

(** A row that comes with its transaction id is inserted, once. *)
Example create_with_transactionId :
  create LedgerSamples.clock (LedgerSamples.candidate100 completed) []
  = inr ({| _id := 0; doc := LedgerSamples.payment100 completed |},
         [LedgerSamples.payment100 completed])
  /\ create LedgerSamples.clock (LedgerSamples.candidate100 completed)
       [LedgerSamples.payment100 completed]
     = inl DuplicateKey.
Proof. split; vm_compute; reflexivity. Qed.

(** The object [processRefund] builds has no transaction id. *)
Lemma validate_refundOf o x reason :
  Required "Transaction ID is required" ∈ validate (refundOf o x reason).
Proof.
  unfold validate. simpl. apply elem_of_cons. left. reflexivity.
Qed.

Lemma create_refundOf env o x reason db :
  create env (refundOf o x reason) db
  = inl (ValidationFailed (validate (refundOf o x reason))).
Proof. eapply create_invalid, validate_refundOf. Qed.

(** *** The contract of [processRefund] *)

Lemma processRefund_NotCompleted env tid a reason db o :
  findOne tid db = Some o -> status (doc o) <> completed ->
  processRefund env tid a reason db = (inl NotCompleted, db).
Proof.
  intros Hf Hst. unfold processRefund. rewrite Hf.
  destruct (status_eqb (status (doc o)) completed) eqn:E; [|reflexivity].
  apply status_eqb_eq in E. contradiction.
Qed.

Lemma processRefund_exceeds env tid a reason db o :
  findOne tid db = Some o ->
  status (doc o) = completed ->
  amount (doc o) < refundAmount a (doc o) ->
  processRefund env tid a reason db = (inl RefundExceedsOriginal, db).
Proof.
  intros Hf Hst Hgt. unfold processRefund. rewrite Hf, Hst. simpl.
  destruct (Z.gtb_spec (refundAmount a (doc o)) (amount (doc o)));
    [reflexivity | lia].
Qed.

Lemma processRefund_within env tid a reason db o :
  findOne tid db = Some o ->
  status (doc o) = completed ->
  refundAmount a (doc o) <= amount (doc o) ->
  processRefund env tid a reason db
  = (inl (ValidationFailed
            (validate (refundOf o (refundAmount a (doc o)) reason))), db).
Proof.
  intros Hf Hst Hle. unfold processRefund. rewrite Hf. cbv zeta.
  rewrite (proj2 (status_eqb_eq _ _) Hst). cbn [negb].
  destruct (Z.gtb_spec (refundAmount a (doc o)) (amount (doc o))); [lia|].
  rewrite create_refundOf. reflexivity.
Qed.

(** Every call throws, and leaves the ledger as it was. *)
Lemma processRefund_throws env tid a reason db :
  exists e, processRefund env tid a reason db = (inl e, db).
Proof.
  unfold processRefund.
  destruct (findOne tid db) as [o|]; [|eauto].
  destruct (negb _); [eauto|]. cbv zeta.
  destruct (_ >? _); [eauto|].
  rewrite create_refundOf. eauto.
Qed.

Lemma processRefunds_id calls : forall db, processRefunds calls db = db.
Proof.
  induction calls as [|c calls IH]; intros db; [reflexivity|].
  unfold processRefunds in *. simpl.
  destruct (processRefund_throws (call_env c) (call_transactionId c)
              (call_amount c) (call_reason c) db) as [e ->].
  simpl. apply IH.
Qed.

(** C4.  [processRefund] fails with the InvalidStateError failure, adding
    no row, whenever the original is not 'completed'.  On a 'completed'
    original whose refund amount is within the original's, the row handed
    to [create] has no transaction id: the call fails on the required
    path, no refund row is added and the original stays 'completed'.  So
    no call of [processRefund] succeeds, and no sequence of calls changes
    the ledger. *)
Theorem processRefund_never_refunds (env : Env) (tid : string)
    (a : option Z) (reason : option string) (db : Ledger) :
  (forall o, findOne tid db = Some o -> status (doc o) <> completed ->
     exists e, processRefund env tid a reason db = (inl e, db)
               /\ classify e = InvalidStateError)
  /\ (forall o, findOne tid db = Some o -> status (doc o) = completed ->
        refundAmount a (doc o) <= amount (doc o) ->
        exists errors,
          processRefund env tid a reason db
          = (inl (ValidationFailed errors), db)
          /\ Required "Transaction ID is required" ∈ errors
          /\ db !! _id o = Some (doc o))
  /\ (forall r db', processRefund env tid a reason db <> (inr r, db'))
  /\ (forall calls, processRefunds calls db = db).
Proof.
  split; [|split; [|split]].
  - intros o Hf Hst. exists NotCompleted. split; [|reflexivity].
    apply (processRefund_NotCompleted _ _ _ _ _ _ Hf Hst).
  - intros o Hf Hst Hle. eexists. split; [|split].
    + apply (processRefund_within _ _ _ _ _ _ Hf Hst Hle).
    + apply validate_refundOf.
    + apply (findOne_Some _ _ _ Hf).
  - intros r db' Hrun.
    destruct (processRefund_throws env tid a reason db) as [e He].
    congruence.
  - intros calls. apply processRefunds_id.
Qed.

Lemma processRefund_never_refunds_witness :
  (exists e,
     processRefund LedgerSamples.clock "TRX-1-1" None None
       [LedgerSamples.payment100 pending]
     = (inl e, [LedgerSamples.payment100 pending])
     /\ classify e = InvalidStateError)
  /\ (exists errors,
        processRefund LedgerSamples.clock "TRX-1-1" (Some 40) None
          [LedgerSamples.payment100 completed]
        = (inl (ValidationFailed errors), [LedgerSamples.payment100 completed])
        /\ Required "Transaction ID is required" ∈ errors).
Proof.
  split.
  - apply (proj1 (processRefund_never_refunds LedgerSamples.clock "TRX-1-1"
                    None None [LedgerSamples.payment100 pending])
             {| _id := 0; doc := LedgerSamples.payment100 pending |});
      [reflexivity | discriminate].
  - destruct (proj1 (proj2 (processRefund_never_refunds LedgerSamples.clock
                              "TRX-1-1" (Some 40) None
                              [LedgerSamples.payment100 completed]))
                {| _id := 0; doc := LedgerSamples.payment100 completed |}
                eq_refl eq_refl ltac:(vm_compute; discriminate))
      as (errors & Hrun & Hin & _).
    exists errors. split; [exact Hrun | exact Hin].
Defined.

(** The refund of 40 of a completed payment of 100 is refused for the
    missing transaction id alone, and the payment stays 'completed'. *)
Example refund_of_completed_payment :
  processRefund LedgerSamples.clock "TRX-1-1" (Some 40) None
    [LedgerSamples.payment100 completed]
  = (inl (ValidationFailed [Required "Transaction ID is required"]),
     [LedgerSamples.payment100 completed]).
Proof. vm_compute. reflexivity. Qed.

(** *** The refund amount *)

Lemma orNumber_spec a b :
  (a = None \/ a = Some 0 -> orNumber a b = b)
  /\ (forall x, a = Some x -> x <> 0 -> orNumber a b = x).
Proof.
  split.
  - intros [-> | ->]; reflexivity.
  - intros x -> Hx. simpl. destruct (Z.eqb_spec x 0); [contradiction | reflexivity].
Qed.

(** C5, as the code has it.  For a completed original, the refund amount
    is [amount || original.amount]: the amount passed when it is present
    and not 0, and the original's amount when it is absent or 0.  The call
    fails with 'Refund amount cannot exceed the original transaction
    amount', the ValidationError failure, exactly when the refund amount
    exceeds the original's, and then the ledger is unchanged. *)
Theorem processRefund_amount (env : Env) (tid : string) (a : option Z)
    (reason : option string) (db : Ledger) (o : Document) :
  findOne tid db = Some o ->
  status (doc o) = completed ->
  (a = None \/ a = Some 0 -> refundAmount a (doc o) = amount (doc o))
  /\ (forall x, a = Some x -> x <> 0 -> refundAmount a (doc o) = x)
  /\ (amount (doc o) < refundAmount a (doc o) <->
      processRefund env tid a reason db = (inl RefundExceedsOriginal, db))
  /\ classify RefundExceedsOriginal = ValidationError.
Proof.
  intros Hf Hst.
  split; [apply orNumber_spec|]. split; [apply orNumber_spec|].
  split; [|reflexivity]. split.
  - intros Hgt. apply (processRefund_exceeds _ _ _ _ _ _ Hf Hst Hgt).
  - intros Hrun.
    destruct (Z.lt_ge_cases (amount (doc o)) (refundAmount a (doc o)))
      as [Hlt | Hle]; [exact Hlt|].
    rewrite (processRefund_within _ _ _ _ _ _ Hf Hst Hle) in Hrun.
    discriminate Hrun.
Qed.

Lemma processRefund_amount_witness :
  refundAmount (Some 40) (LedgerSamples.payment100 completed) = 40
  /\ refundAmount None (LedgerSamples.payment100 completed) = 100
  /\ processRefund LedgerSamples.clock "TRX-1-1" (Some 101) None
       [LedgerSamples.payment100 completed]
     = (inl RefundExceedsOriginal, [LedgerSamples.payment100 completed]).
Proof.
  pose proof (fun a =>
                processRefund_amount LedgerSamples.clock "TRX-1-1" a None
                  [LedgerSamples.payment100 completed]
                  {| _id := 0; doc := LedgerSamples.payment100 completed |}
                  eq_refl eq_refl) as H.
  split; [|split].
  - apply (proj1 (proj2 (H (Some 40))) 40 eq_refl). discriminate.
  - apply (proj1 (H None)). left. reflexivity.
  - apply (proj1 (proj2 (proj2 (H (Some 101))))). vm_compute. reflexivity.
Defined.

(** C5 as stated fails: an amount of 0 is not honoured; the refund amount
    is the whole original amount, and that is what the row handed to
    [create] carries. *)
Lemma refund_zero_counterexample :
  refundAmount (Some 0) (LedgerSamples.payment100 completed) = 100
  /\ refundAmount (Some 0) (LedgerSamples.payment100 completed) <> 0
  /\ c_amount
       (refundOf {| _id := 0; doc := LedgerSamples.payment100 completed |}
          (refundAmount (Some 0) (LedgerSamples.payment100 completed)) None)
     = Some (Amount 100).
Proof. split; [reflexivity|]. split; [discriminate | reflexivity]. Qed.

End TransactionFacts.

(** ** Recording a payment *)

Module SubscriptionControllerFacts.
Import SubscriptionPlanModel SubscriptionController.
Import TransactionFacts.

(** The amount the handler assigns is the plan's price sub-document, which
    is no Number. *)
Lemma validate_transactionOf req plan :
  CastFailed "amount" ∈ TransactionModel.validate (transactionOf req plan).
Proof.
  unfold TransactionModel.validate. rewrite !elem_of_app. simpl.
  do 4 right. left. apply list_elem_of_singleton. reflexivity.
Qed.

Lemma create_transactionOf env req plan ledger :
  TransactionModel.create env (transactionOf req plan) ledger
  = inl (TransactionModel.ValidationFailed
           (TransactionModel.validate (transactionOf req plan))).
Proof. eapply create_invalid, validate_transactionOf. Qed.

(** What the handler answers, case by case. *)
Lemma createTransaction_cases env plans st req :
  createTransaction env plans st req
  = match SubscriptionModel.findById (params_subscriptionId req)
            (subscriptions st) with
    | None => (Fail404 "Subscription not found", st)
    | Some subscription =>
        if isStudent (req_user req) then (Next TypeError, st)
        else
          match plans !! SubscriptionModel.plan (SubscriptionModel.doc subscription) with
          | None => (Next TypeError, st)
          | Some plan =>
              (Next (StoreError
                       (TransactionModel.ValidationFailed
                          (TransactionModel.validate (transactionOf req plan)))),
               st)
          end
    end.
Proof.
  unfold createTransaction, denied.
  destruct (SubscriptionModel.findById _ _) as [subscription|]; [|reflexivity].
  destruct (isStudent (req_user req)); [reflexivity|].
  destruct (plans !! _) as [plan|]; [|reflexivity].
  rewrite create_transactionOf. reflexivity.
Qed.

(** C7.  [createTransaction] records no payment.  For a requester who is
    not a student, on a subscription whose plan exists, the amount it hands
    to [Transaction.create] is the plan's price sub-document, the cast of
    the Number path [amount] fails and the error goes to the error
    handler; a student's request fails earlier, on the permission check.
    Whatever the request, the answer is never 201, no transaction is
    written and no subscription changes: a 'pending' subscription stays
    'pending'. *)
Theorem createTransaction_never_records (env : TransactionModel.Env)
    (plans : list SubscriptionPlan) (st : Store) (req : Request) :
  (forall subscription plan,
     SubscriptionModel.findById (params_subscriptionId req) (subscriptions st)
     = Some subscription ->
     isStudent (req_user req) = false ->
     plans !! SubscriptionModel.plan (SubscriptionModel.doc subscription)
     = Some plan ->
     exists errors,
       createTransaction env plans st req
       = (Next (StoreError (TransactionModel.ValidationFailed errors)), st)
       /\ CastFailed "amount" ∈ errors)
  /\ (forall transaction st',
        createTransaction env plans st req <> (Success201 transaction, st'))
  /\ (createTransaction env plans st req).2 = st.
Proof.
  rewrite createTransaction_cases.
  split; [|split].
  - intros subscription plan -> -> ->. eexists. split; [reflexivity|].
    apply validate_transactionOf.
  - intros transaction st'.
    destruct (SubscriptionModel.findById _ _) as [subscription|]; [|discriminate].
    destruct (isStudent (req_user req)); [discriminate|].
    destruct (plans !! _) as [plan|]; discriminate.
  - destruct (SubscriptionModel.findById _ _) as [subscription|]; [|reflexivity].
    destruct (isStudent (req_user req)); [reflexivity|].
    destruct (plans !! _) as [plan|]; reflexivity.
Qed.

Lemma createTransaction_never_records_witness :
  exists errors,
    createTransaction LedgerSamples.clock Samples.plans
      (RequestSamples.store SubscriptionModel.pending)
      (RequestSamples.pay RequestSamples.root)
    = (Next (StoreError (TransactionModel.ValidationFailed errors)),
       RequestSamples.store SubscriptionModel.pending)
    /\ CastFailed "amount" ∈ errors.
Proof.
  apply (proj1 (createTransaction_never_records LedgerSamples.clock
                  Samples.plans (RequestSamples.store SubscriptionModel.pending)
                  (RequestSamples.pay RequestSamples.root))
           {| SubscriptionModel._id := 0;
              SubscriptionModel.doc :=
                Samples.sub SubscriptionModel.pending (Some 4) |}
           Samples.monthly4 eq_refl eq_refl eq_refl).
Defined.

(** An administrator's payment for a pending subscription: the only
    validation error is the cast of [amount], nothing is recorded and the
    subscription is still 'pending'. *)
Example payment_for_pending_subscription :
  createTransaction LedgerSamples.clock Samples.plans
    (RequestSamples.store SubscriptionModel.pending)
    (RequestSamples.pay RequestSamples.root)
  = (Next (StoreError (TransactionModel.ValidationFailed [CastFailed "amount"])),
     {| subscriptions := [Samples.sub SubscriptionModel.pending (Some 4)];
        transactions := [] |}).
Proof. vm_compute. reflexivity. Qed.

(** The same request by a student does not get past the permission
    check. *)
Example payment_by_student :
  createTransaction LedgerSamples.clock Samples.plans
    (RequestSamples.store SubscriptionModel.pending)
    (RequestSamples.pay RequestSamples.alice)
  = (Next TypeError, RequestSamples.store SubscriptionModel.pending).
Proof. vm_compute. reflexivity. Qed.

End SubscriptionControllerFacts.

(** ** Creating a subscription *)

Module StudentControllerFacts.
Import SubscriptionPlanModel SubscriptionModel StudentController.
Import JsDateFacts SubscriptionFacts.

(** The controller's own arithmetic never applies: the end date it
    supplies is the start date. *)
Lemma controllerEndDate_start plan startDate :
  controllerEndDate plan startDate = startDate.
Proof. reflexivity. Qed.

(** What [create] inserts for a candidate that carries an end date: the
    document as constructed, the hook passing it on as it is. *)
Lemma create_with_endDate plans now c db d db' :
  is_Some (c_endDate c) ->
  create plans now c db = inr (d, db') ->
  construct now c = Some (doc d)
  /\ _id d = length db
  /\ db' = db ++ [doc d].
Proof.
  intros [e He]. unfold create.
  destruct (validate c); [|discriminate].
  destruct (construct now c) as [s|] eqn:Hc; [|discriminate].
  assert (Hs : endDate s = Some e).
  { unfold construct in Hc.
    destruct (c_student c), (c_plan c), (c_paymentMethod c), (c_amountPaid c);
      try discriminate Hc.
    injection Hc as <-. exact He. }
  rewrite (preSave_with_endDate _ _ _ _ _ Hs).
  intros [= <- <-]. auto.
Qed.

Lemma createSubscription_201 handlerNow defaultNow students plans db req sub db' :
  createSubscription handlerNow defaultNow students plans db req
  = (Success201 sub, db') ->
  exists startDate,
    construct defaultNow (candidateOf req startDate) = Some (doc sub)
    /\ startDate = default handlerNow (body_startDate (body req))
    /\ _id sub = length db
    /\ db' = db ++ [doc sub]
    /\ isStudent (req_user req) = false.
Proof.
  unfold createSubscription.
  destruct (students !! params_id req) as [st|]; [|discriminate].
  unfold denied.
  destruct (isStudent (req_user req)) eqn:Hrole.
  { destruct (user st); [|discriminate].
    destruct (id (req_user req)); discriminate. }
  destruct (body_plan (body req) ≫= _) as [p|]; [|discriminate].
  rewrite controllerEndDate_start.
  destruct (create _ _ _ _) as [e | [d db1]] eqn:Hcreate; [discriminate|].
  intros [= <- <-].
  apply create_with_endDate in Hcreate; [|simpl; eauto].
  destruct Hcreate as (Hc & Hid & Hdb). eauto 10.
Qed.

Lemma construct_fields now c s :
  construct now c = Some s ->
  c_student c = Some (student s)
  /\ c_plan c = Some (plan s)
  /\ startDate s = Some (default now (c_startDate c))
  /\ endDate s = c_endDate c
  /\ status s = default pending (c_status c)
  /\ remainingSessions s = c_remainingSessions c.
Proof.
  unfold construct.
  destruct (c_student c), (c_plan c), (c_paymentMethod c), (c_amountPaid c);
    try discriminate.
  intros [= <-]. simpl. auto 10.
Qed.

Lemma createSubscription_succeeds handlerNow defaultNow students plans db req
    st planId p pm paid :
  students !! params_id req = Some st ->
  isStudent (req_user req) = false ->
  body_plan (body req) = Some planId ->
  plans !! planId = Some p ->
  body_paymentMethod (body req) = Some pm ->
  body_amountPaid (body req) = Some paid ->
  body_currency (body req) <> Some EmptyString ->
  exists sub,
    createSubscription handlerNow defaultNow students plans db req
    = (Success201 sub, db ++ [doc sub]).
Proof.
  intros Hst Hrole Hplan Hp Hpm Hpaid Hcur. unfold createSubscription.
  rewrite Hst. unfold denied. rewrite Hrole, Hplan.
  cbn [mbind option_bind]. rewrite Hp. cbv zeta.
  rewrite controllerEndDate_start.
  set (c := candidateOf req _).
  assert (Hv : validate c = []).
  { unfold validate, c. simpl. rewrite Hplan, Hpm, Hpaid. simpl.
    destruct (body_currency (body req)) as [[|? ?]|]; simpl;
      [congruence | reflexivity | reflexivity]. }
  assert (Hcon : exists s, construct defaultNow c = Some s
                           /\ is_Some (endDate s)).
  { unfold construct, c. simpl. rewrite Hplan, Hpm, Hpaid.
    eexists. split; [reflexivity|]. simpl. eauto. }
  destruct Hcon as (s & Hs & e & He).
  unfold create. rewrite Hv, Hs.
  rewrite (preSave_with_endDate _ _ _ _ _ He).
  exists {| _id := length db; doc := s |}. reflexivity.
Qed.

(** C6, as the code has it.  A subscription that the controller's
    [createSubscription] persists has status 'active', and, since the
    controller always supplies an end date itself, the pre-save hook leaves
    remainingSessions as the request gave it (null by default); the
    request of a requester who is not a student, for a profile and a plan
    that exist, with a payment method and an amount paid, is answered
    that way.  The pre-save hook, on a new subscription that carries no
    end date, keeps the status the document has ('pending' by default),
    sets endDate to startDate plus the plan's duration and sets
    remainingSessions to the plan's maxSessions when that is neither null
    nor 0.  Plus the duration means: so many days, or weeks of 7 days,
    later to the millisecond; the same day of the month so many months
    later, and the same day and month so many years later, when that day
    exists there.  One month from 2024-01-15 is 2024-02-15. *)
Theorem createSubscription_contract (handlerNow defaultNow : Date)
    (students : list StudentProfile) (plans : list SubscriptionPlan)
    (db : Collection) :
  (forall req sub db',
     createSubscription handlerNow defaultNow students plans db req
     = (Success201 sub, db') ->
     db' = db ++ [doc sub]
     /\ status (doc sub) = active
     /\ remainingSessions (doc sub) = body_remainingSessions (body req))
  /\ (forall req st planId p pm paid,
        students !! params_id req = Some st ->
        isStudent (req_user req) = false ->
        body_plan (body req) = Some planId ->
        plans !! planId = Some p ->
        body_paymentMethod (body req) = Some pm ->
        body_amountPaid (body req) = Some paid ->
        body_currency (body req) <> Some EmptyString ->
        exists sub,
          createSubscription handlerNow defaultNow students plans db req
          = (Success201 sub, db ++ [doc sub]))
  /\ (forall now this p,
        endDate this = None -> plans !! plan this = Some p ->
        exists this',
          preSave plans now true this = inr this'
          /\ status this' = status this
          /\ endDate this'
             = Some (addDuration (default now (startDate this)) (duration p))
          /\ remainingSessions this'
             = if truthyNumber (maxSessions p) then maxSessions p
               else remainingSessions this)
  /\ (forall start d,
        (unit d = days -> addDuration start d = start + value d * msPerDay)
        /\ (unit d = weeks ->
            addDuration start d = start + value d * 7 * msPerDay)
        /\ (unit d = months ->
            1 <= getDate start
                 <= daysInMonth
                      (isLeapYear (getFullYear start
                                   + (getMonth start + value d) / 12))
                      ((getMonth start + value d) mod 12) ->
            getFullYear (addDuration start d)
            = getFullYear start + (getMonth start + value d) / 12
            /\ getMonth (addDuration start d) = (getMonth start + value d) mod 12
            /\ getDate (addDuration start d) = getDate start
            /\ TimeWithinDay (addDuration start d) = TimeWithinDay start)
        /\ (unit d = years ->
            1 <= getDate start
                 <= daysInMonth (isLeapYear (getFullYear start + value d))
                      (getMonth start) ->
            getFullYear (addDuration start d) = getFullYear start + value d
            /\ getMonth (addDuration start d) = getMonth start
            /\ getDate (addDuration start d) = getDate start
            /\ TimeWithinDay (addDuration start d) = TimeWithinDay start))
  /\ addDuration (ymd 2024 1 15) {| value := 1; unit := months |}
     = ymd 2024 2 15.
Proof.
  split; [|split; [|split; [|split]]].
  - intros req sub db' Hrun.
    destruct (createSubscription_201 _ _ _ _ _ _ _ _ Hrun)
      as (startDate & Hc & _ & _ & Hdb & _).
    destruct (construct_fields _ _ _ Hc) as (_ & _ & _ & _ & Hst & Hrem).
    auto.
  - intros req st planId p pm paid.
    apply createSubscription_succeeds.
  - intros now this p He Hp.
    rewrite (preSave_derives _ _ _ _ He Hp). cbv zeta.
    eexists. split; [reflexivity|].
    destruct (truthyNumber (maxSessions p)); simpl; repeat split.
  - intros start d. unfold addDuration.
    split; [|split; [|split]]; intros ->.
    + apply setDate_getDate.
    + rewrite setDate_getDate. lia.
    + apply setMonth_getMonth.
    + apply setFullYear_getFullYear.
  - vm_compute. reflexivity.
Qed.

Lemma createSubscription_contract_witness :
  (exists sub,
     createSubscription (ymd 2024 1 10) (ymd 2024 1 10) RequestSamples.students
       Samples.plans [] (RequestSamples.subscribe RequestSamples.root)
     = (Success201 sub, [doc sub])
     /\ status (doc sub) = active
     /\ remainingSessions (doc sub) = None)
  /\ (exists this',
        preSave Samples.plans (ymd 2024 1 10) true (Samples.fresh 0 None)
        = inr this'
        /\ status this' = pending
        /\ endDate this' = Some (ymd 2024 2 15)
        /\ remainingSessions this' = Some 4)
  /\ getDate (addDuration (ymd 2024 1 15) {| value := 13; unit := months |}) = 15.
Proof.
  pose proof (createSubscription_contract (ymd 2024 1 10) (ymd 2024 1 10)
                RequestSamples.students Samples.plans [])
    as (Hctl & Hok & Hhook & Hadd & _).
  split; [|split].
  - destruct (Hok (RequestSamples.subscribe RequestSamples.root)
                {| user := Some 7%nat |} 0%nat Samples.monthly4 cash 100
                eq_refl eq_refl eq_refl eq_refl eq_refl eq_refl
                ltac:(discriminate))
      as (sub & Hrun).
    exists sub. split; [exact Hrun|].
    destruct (Hctl _ _ _ Hrun) as (_ & Hst & Hrem).
    split; [exact Hst | exact Hrem].
  - destruct (Hhook (ymd 2024 1 10) (Samples.fresh 0 None) Samples.monthly4
                eq_refl eq_refl)
      as (this' & Hrun & Hst & Hend & Hrem).
    exists this'. split; [exact Hrun|]. split; [exact Hst|].
    split; [|exact Hrem].
    rewrite Hend. vm_compute. reflexivity.
  - apply (proj1 (proj2 (proj2
             (Hadd (ymd 2024 1 15) {| value := 13; unit := months |})))
             eq_refl).
    vm_compute. split; discriminate.
Defined.

(** C6 as stated fails: for an administrator's request for the one-month,
    four-session plan from 2024-01-15 the controller persists status
    'active', remainingSessions null and an endDate that is not
    2024-02-15. *)
Lemma createSubscription_counterexample :
  duration Samples.monthly4 = {| value := 1; unit := months |}
  /\ maxSessions Samples.monthly4 = Some 4
  /\ createSubscription (ymd 2024 1 10) (ymd 2024 1 10)
       RequestSamples.students Samples.plans []
       (RequestSamples.subscribe RequestSamples.root)
     = (Success201 {| _id := 0; doc := RequestSamples.stored |},
        [RequestSamples.stored])
  /\ status RequestSamples.stored <> pending
  /\ remainingSessions RequestSamples.stored <> Some 4
  /\ endDate RequestSamples.stored <> Some (ymd 2024 2 15).
Proof.
  split; [reflexivity|]. split; [reflexivity|].
  split; [vm_compute; reflexivity|].
  split; [discriminate|]. split; [discriminate|].
  vm_compute. discriminate.
Qed.

End StudentControllerFacts.

(** ** Entitlement, activity and renewal together *)

Module EntitlementFacts.
Import SubscriptionModel SubscriptionVirtuals JsDateFacts SubscriptionFacts.

Lemma isActive_parts now this :
  isActive now this = true ->
  status this = active
  /\ (exists e, endDate this = Some e /\ now <= e)
  /\ (remainingSessions this = None
      \/ exists n, remainingSessions this = Some n /\ 0 < n).
Proof.
  unfold isActive. intros H.
  apply andb_prop in H as [H Hrem]. apply andb_prop in H as [H Hend].
  apply andb_prop in H as [Hst _].
  split; [destruct (status this); simpl in Hst; congruence|]. split.
  - destruct (endDate this) as [e|]; [|discriminate].
    exists e. split; [reflexivity | lia].
  - destruct (remainingSessions this) as [n|]; [right | left; reflexivity].
    exists n. split; [reflexivity | lia].
Qed.

(** An active subscription always has a session to give: whenever
    [isActive] holds, [deductSession] succeeds, and the document it leaves
    is still of status 'active'. *)
Theorem isActive_deductSession_succeeds (now : Date) (this : Document)
    (db : Collection) :
  isActive now (doc this) = true ->
  exists this' db',
    deductSession this db = (true, this', db')
    /\ status (doc this') = active
    /\ (remainingSessions (doc this) = None -> this' = this /\ db' = db)
    /\ (forall n, remainingSessions (doc this) = Some n ->
          remainingSessions (doc this') = Some (n - 1)).
Proof.
  intros Hact.
  destruct (isActive_parts _ _ Hact) as (Hst & _ & [Hnull | (n & Hn & Hpos)]).
  - rewrite (deductSession_unlimited _ _ Hnull). exists this, db.
    split; [reflexivity|]. split; [exact Hst|]. split; [auto|].
    intros n Hn. congruence.
  - rewrite (deductSession_decrements _ _ _ Hn Hpos). eexists _, _.
    split; [reflexivity|]. simpl. split; [exact Hst|].
    split; [congruence|].
    intros m Hm. congruence.
Qed.

Lemma isActive_deductSession_succeeds_witness :
  exists this' db',
    deductSession (Samples.loaded (Samples.sub active (Some 2)))
      [Samples.sub active (Some 2)]
    = (true, this', db')
    /\ remainingSessions (doc this') = Some 1.
Proof.
  destruct (isActive_deductSession_succeeds (ymd 2024 2 1)
              (Samples.loaded (Samples.sub active (Some 2)))
              [Samples.sub active (Some 2)] eq_refl)
    as (this' & db' & Hrun & _ & _ & Hrem).
  exists this', db'. split; [exact Hrun | apply (Hrem 2 eq_refl)].
Defined.

(** How [k] calls in a row come out on a balance of [n]. *)
Lemma deductSessions_counts k : forall this db n,
  remainingSessions (doc this) = Some n -> 0 <= n ->
  exists this' db',
    deductSessions k this db
    = (replicate (Nat.min k (Z.to_nat n)) true
         ++ replicate (k - Z.to_nat n) false,
       this', db')
    /\ remainingSessions (doc this')
       = Some (n - Z.of_nat (Nat.min k (Z.to_nat n)))
    /\ _id this' = _id this
    /\ status (doc this') = status (doc this)
    /\ endDate (doc this') = endDate (doc this)
    /\ (db !! _id this = Some (doc this) -> db' !! _id this = Some (doc this')).
Proof.
  induction k as [|k IH]; intros this db n Hn Hpos.
  - exists this, db. simpl. rewrite Hn. repeat split; auto. f_equal. lia.
  - simpl. destruct (Z_le_gt_dec n 0) as [Hle | Hgt].
    + assert (n = 0) by lia. subst n.
      rewrite (deductSession_exhausted _ _ _ Hn Hle).
      destruct (IH this db 0 Hn Hpos) as (this' & db' & Hrun & Hrem & Hid & Hst & He & Hdb).
      rewrite Hrun. exists this', db'.
      change (Z.to_nat 0) with 0%nat in *.
      rewrite Nat.min_0_r in *. rewrite Nat.sub_0_r in *. simpl in *.
      repeat split; auto.
    + rewrite (deductSession_decrements _ _ _ Hn) by lia.
      destruct (IH {| _id := _id this;
                      doc := set_remainingSessions (Some (n - 1)) (doc this) |}
                  (<[_id this := set_remainingSessions (Some (n - 1)) (doc this)]> db)
                  (n - 1) eq_refl ltac:(lia))
        as (this' & db' & Hrun & Hrem & Hid & Hst & He & Hdb).
      rewrite Hrun. exists this', db'.
      assert (Hnat : Z.to_nat n = S (Z.to_nat (n - 1))) by lia.
      rewrite Hnat. simpl in *. repeat split; auto.
      * rewrite Hrem. f_equal. lia.
      * intros Hin. apply Hdb. apply list_lookup_insert_eq.
        eapply lookup_lt_Some; eauto.
Qed.

(** A balance of [n] sessions buys exactly [n] deductions: of [k] calls in
    a row the first [min k n] succeed and all later ones fail, and the
    balance left, in memory and in the store, is [n] minus the number of
    successes. *)
Theorem deductSessions_exact (k : nat) (this : Document) (db : Collection)
    (n : Z) :
  remainingSessions (doc this) = Some n -> 0 <= n ->
  db !! _id this = Some (doc this) ->
  (deductSessions k this db).1.1
  = replicate (Nat.min k (Z.to_nat n)) true ++ replicate (k - Z.to_nat n) false
  /\ remainingSessions (doc (deductSessions k this db).1.2)
     = Some (Z.max 0 (n - Z.of_nat k))
  /\ remainingSessions <$> (deductSessions k this db).2 !! _id this
     = Some (Some (Z.max 0 (n - Z.of_nat k))).
Proof.
  intros Hn Hpos Hin.
  destruct (deductSessions_counts k this db n Hn Hpos)
    as (this' & db' & Hrun & Hrem & _ & _ & _ & Hdb).
  rewrite Hrun. simpl. split; [reflexivity|].
  rewrite (Hdb Hin). simpl. rewrite Hrem.
  split; do 2 f_equal; lia.
Qed.

Lemma deductSessions_exact_witness :
  (deductSessions 5 (Samples.loaded (Samples.sub active (Some 4)))
     [Samples.sub active (Some 4)]).1.1
  = [true; true; true; true; false]
  /\ remainingSessions <$>
       (deductSessions 5 (Samples.loaded (Samples.sub active (Some 4)))
          [Samples.sub active (Some 4)]).2 !! 0%nat
     = Some (Some 0).
Proof.
  destruct (deductSessions_exact 5 (Samples.loaded (Samples.sub active (Some 4)))
              [Samples.sub active (Some 4)] 4 eq_refl ltac:(lia) eq_refl)
    as (Hres & _ & Hst).
  split; [exact Hres | exact Hst].
Defined.

(** Once the balance is used up the subscription is inactive at every
    instant, whatever its status and dates. *)
Theorem used_up_is_inactive (k : nat) (this : Document) (db : Collection)
    (n : Z) (now : Date) :
  remainingSessions (doc this) = Some n -> 0 <= n <= Z.of_nat k ->
  isActive now (doc (deductSessions k this db).1.2) = false.
Proof.
  intros Hn Hk.
  destruct (deductSessions_counts k this db n Hn ltac:(lia))
    as (this' & db' & Hrun & Hrem & _).
  rewrite Hrun. simpl. unfold isActive. rewrite Hrem.
  replace (n - Z.of_nat (Nat.min k (Z.to_nat n))) with 0 by lia.
  simpl. rewrite !andb_false_r. reflexivity.
Qed.

Lemma used_up_is_inactive_witness :
  isActive (ymd 2024 2 1) (Samples.sub active (Some 1)) = true
  /\ isActive (ymd 2024 2 1)
       (doc (deductSessions 1 (Samples.loaded (Samples.sub active (Some 1)))
               [Samples.sub active (Some 1)]).1.2)
     = false.
Proof.
  split; [reflexivity|].
  apply (used_up_is_inactive 1 _ _ 1); [reflexivity | lia].
Defined.

(** *** Days remaining *)

Lemma ceilDiv_bounds a :
  (ceilDiv a msPerDay - 1) * msPerDay < a <= ceilDiv a msPerDay * msPerDay.
Proof. unfold ceilDiv, msPerDay. Z.div_mod_to_equations. lia. Qed.

Lemma status_eqb_active st : status_eqb st active = true <-> st = active.
Proof. destruct st; simpl; split; congruence. Qed.

(** [daysRemaining] of a subscription that has an end date is a number of
    days, never negative; it is 0 exactly when the subscription is not of
    status 'active' or its end date is reached or passed; otherwise it is
    the least number of whole days that cover the time left. *)
Theorem daysRemaining_bounds (now : Date) (this : Subscription) (e : Date) :
  endDate this = Some e ->
  exists d,
    daysRemaining now this = Some d
    /\ 0 <= d
    /\ (d = 0 <-> status this <> active \/ e <= now)
    /\ (status this = active -> now < e ->
        (d - 1) * msPerDay < e - now <= d * msPerDay).
Proof.
  intros He. unfold daysRemaining. rewrite He.
  change (1000 * 60 * 60 * 24) with msPerDay.
  destruct (status_eqb (status this) active) eqn:Hst; simpl.
  - apply status_eqb_active in Hst.
    destruct (Z.gtb_spec now e) as [Hgt | Hle].
    + exists 0. split; [reflexivity|]. split; [lia|]. split; [|lia].
      split; [intros _; right; lia | reflexivity].
    + pose proof (ceilDiv_bounds (Z.abs (e - now))) as Hb.
      exists (ceilDiv (Z.abs (e - now)) msPerDay).
      split; [reflexivity|]. unfold msPerDay in *.
      split; [lia|]. split; [split|].
      * intros H0. right. lia.
      * intros [Hne | Hle']; [contradiction | lia].
      * intros _ Hlt. lia.
  - assert (Hne : status this <> active).
    { intros H. apply status_eqb_active in H. congruence. }
    exists 0. split; [reflexivity|]. split; [lia|]. split; [|contradiction].
    split; [intros _; left; exact Hne | reflexivity].
Qed.

Lemma daysRemaining_bounds_witness :
  exists d,
    daysRemaining (ymd 2024 2 1 + 1) (Samples.sub active (Some 3)) = Some d
    /\ d = 14.
Proof.
  destruct (daysRemaining_bounds (ymd 2024 2 1 + 1) (Samples.sub active (Some 3))
              (ymd 2024 2 15) eq_refl)
    as (d & Hrun & _ & _ & Hb).
  exists d. split; [exact Hrun|].
  specialize (Hb eq_refl ltac:(vm_compute; reflexivity)).
  unfold msPerDay in Hb. vm_compute (ymd _ _ _) in Hb. lia.
Defined.

(** *** Renewal and activity *)

Lemma canBeRenewed_true now this this' :
  canBeRenewed now this = Some (true, this') ->
  (status this = active \/ status this = expired)
  /\ exists e, endDate this = Some e
               /\ this' = set_endDate (Some (e - 30 * msPerDay)) this
               /\ e - 30 * msPerDay < now.
Proof.
  unfold canBeRenewed.
  destruct (status_eqb (status this) active || status_eqb (status this) expired)
    eqn:Hst; [|discriminate].
  apply renewable_status in Hst.
  destruct (endDate this) as [e|]; [|discriminate].
  rewrite setDate_getDate_sub.
  intros [= Hgt <-]. split; [exact Hst|]. exists e.
  rewrite Z.gtb_ltb in Hgt. apply Z.ltb_lt in Hgt. auto.
Qed.

(** A subscription that [canBeRenewed] has just found renewable is no
    longer active on the document in hand: the call has moved the end date
    before now, so [isActive] is false and [daysRemaining] is 0
    afterwards. *)
Theorem renewable_then_inactive (now : Date) (this this' : Subscription) :
  canBeRenewed now this = Some (true, this') ->
  isActive now this' = false /\ daysRemaining now this' = Some 0.
Proof.
  intros Hrun.
  destruct (canBeRenewed_true _ _ _ Hrun) as (_ & e & _ & -> & Hlt).
  split.
  - unfold isActive. simpl.
    destruct (Z.leb_spec now (e - 30 * msPerDay)); [lia|].
    rewrite andb_false_r. reflexivity.
  - unfold daysRemaining. simpl.
    destruct (status_eqb (status this) active); simpl; [|reflexivity].
    destruct (Z.gtb_spec now (e - 30 * msPerDay)); [reflexivity | lia].
Qed.

Lemma renewable_then_inactive_witness :
  isActive (ymd 2024 2 1) (Samples.sub active (Some 3)) = true
  /\ exists this',
       canBeRenewed (ymd 2024 2 1) (Samples.sub active (Some 3))
       = Some (true, this')
       /\ isActive (ymd 2024 2 1) this' = false.
Proof.
  split; [reflexivity|]. eexists. split; [vm_compute; reflexivity|].
  apply (renewable_then_inactive (ymd 2024 2 1) (Samples.sub active (Some 3))).
  vm_compute. reflexivity.
Defined.

Lemma canBeRenewed_renewable now this e :
  status this = active \/ status this = expired ->
  endDate this = Some e ->
  canBeRenewed now this
  = Some (now >? e - 30 * msPerDay,
          set_endDate (Some (e - 30 * msPerDay)) this).
Proof.
  intros Hst He. unfold canBeRenewed.
  rewrite (proj2 (renewable_status this) Hst), He, setDate_getDate_sub.
  reflexivity.
Qed.

Lemma canBeRenewedTimes_S n now this :
  canBeRenewedTimes (S n) now this
  = match canBeRenewed now this with
    | None => None
    | Some (b, this1) =>
        match canBeRenewedTimes n now this1 with
        | None => None
        | Some (bs, this2) => Some (b :: bs, this2)
        end
    end.
Proof. reflexivity. Qed.

Lemma canBeRenewedTimes_answers now n : forall this e,
  status this = active \/ status this = expired ->
  endDate this = Some e ->
  exists bs this',
    canBeRenewedTimes n now this = Some (bs, this')
    /\ length bs = n
    /\ status this' = status this
    /\ endDate this' = Some (e - 30 * Z.of_nat n * msPerDay)
    /\ forall k, (k < n)%nat ->
         bs !! k = Some (now >? e - 30 * (Z.of_nat k + 1) * msPerDay).
Proof.
  induction n as [|n IH]; intros this e Hst He.
  - exists [], this. simpl. repeat split; auto; [rewrite He; f_equal; lia | lia].
  - rewrite canBeRenewedTimes_S, (canBeRenewed_renewable _ _ _ Hst He).
    destruct (IH (set_endDate (Some (e - 30 * msPerDay)) this)
                (e - 30 * msPerDay) Hst eq_refl)
      as (bs & this' & Hrun & Hlen & Hst' & He' & Hk).
    rewrite Hrun. eexists _, _. split; [reflexivity|]. simpl.
    split; [lia|]. split; [exact Hst'|]. split.
    + rewrite He'. f_equal. unfold msPerDay. lia.
    + intros [|k] Hlt; simpl.
      * reflexivity.
      * rewrite Hk by lia. f_equal. f_equal. unfold msPerDay. lia.
Qed.

(** Asking again changes the answer: each call of [canBeRenewed] on a
    subscription of status 'active' or 'expired' moves the end date of the
    document a further 30 days back, so the [k]-th call compares now with
    endDate minus [30 k] days, and for every now some call answers true. *)
Theorem canBeRenewed_again (now : Date) (this : Subscription) (e : Date) :
  status this = active \/ status this = expired ->
  endDate this = Some e ->
  (forall n, exists bs this',
     canBeRenewedTimes n now this = Some (bs, this')
     /\ endDate this' = Some (e - 30 * Z.of_nat n * msPerDay)
     /\ forall k, (k < n)%nat ->
          bs !! k = Some (now >? e - 30 * (Z.of_nat k + 1) * msPerDay))
  /\ exists n bs this',
       canBeRenewedTimes (S n) now this = Some (bs, this')
       /\ bs !! n = Some true.
Proof.
  intros Hst He. split.
  - intros n.
    destruct (canBeRenewedTimes_answers now n this e Hst He)
      as (bs & this' & Hrun & _ & _ & He' & Hk).
    exists bs, this'. auto.
  - set (n := Z.to_nat (Z.max 0 (e - now))).
    destruct (canBeRenewedTimes_answers now (S n) this e Hst He)
      as (bs & this' & Hrun & _ & _ & _ & Hk).
    exists n, bs, this'. split; [exact Hrun|].
    rewrite Hk by lia. f_equal.
    rewrite Z.gtb_ltb. apply Z.ltb_lt. unfold msPerDay. lia.
Qed.

Lemma canBeRenewed_again_witness :
  exists this',
    canBeRenewedTimes 2 (ymd 2024 1 1) (Samples.sub active (Some 3))
    = Some ([false; true], this')
    /\ endDate this' = Some (ymd 2024 2 15 - 60 * msPerDay).
Proof.
  destruct (proj1 (canBeRenewed_again (ymd 2024 1 1) (Samples.sub active (Some 3))
                     (ymd 2024 2 15) (or_introl eq_refl) eq_refl) 2%nat)
    as (bs & this' & Hrun & Hend & _).
  exists this'. split; [|exact Hend].
  rewrite Hrun. vm_compute in Hrun. injection Hrun as <- _. reflexivity.
Defined.

End EntitlementFacts.

(** ** Discount codes *)

Module DiscountFacts.
Import Discounts.

Lemma find_first {A} (P : A -> bool) (l : list A) (d : A) :
  List.find P l = Some d <->
  exists i, l !! i = Some d /\ P d = true
            /\ forall j d', l !! j = Some d' -> (j < i)%nat -> P d' = false.
Proof.
  induction l as [|x l IH]; simpl.
  - split; [discriminate | intros (i & H & _); destruct i; discriminate H].
  - destruct (P x) eqn:Hx.
    + split.
      * intros [= <-]. exists 0%nat. repeat split; auto. intros j d' _ Hj. lia.
      * intros ([|i] & Hi & Hd & Hfirst); simpl in Hi.
        -- congruence.
        -- specialize (Hfirst 0%nat x eq_refl ltac:(lia)). congruence.
    + rewrite IH. split.
      * intros (i & Hi & Hd & Hfirst). exists (S i). repeat split; auto.
        intros [|j] d' Hj Hlt; simpl in Hj; [congruence|].
        apply (Hfirst j d' Hj). lia.
      * intros ([|i] & Hi & Hd & Hfirst); simpl in Hi; [congruence|].
        exists i. repeat split; auto.
        intros j d' Hj Hlt. apply (Hfirst (S j) d' Hj). lia.
Qed.

Lemma isDiscountValid_find now discounts c :
  isDiscountValid now discounts c = true <->
  exists d, List.find (fun d => bool_decide (code d = c)) discounts = Some d
            /\ usable now d.
Proof.
  unfold isDiscountValid, usable.
  destruct discounts as [|d0 rest] eqn:Hl.
  { simpl. split; [discriminate | intros (d & H & _); discriminate H]. }
  rewrite <- Hl. clear Hl.
  destruct (List.find _ discounts) as [d|].
  2: { split; [discriminate | intros (d & H & _); discriminate H]. }
  split.
  - intros H. exists d. split; [reflexivity|].
    destruct (validUntil d) as [v|], (maxUses d) as [m|];
      repeat match type of H with
             | context [?a >? ?b] => destruct (Z.gtb_spec a b)
             | context [?a =? ?b] => destruct (Z.eqb_spec a b)
             | context [?a >=? ?b] => destruct (Z.geb_spec a b)
             end; simpl in H; try discriminate H;
      split; intros ? [= <-]; try lia; intros; lia.
  - intros (d' & [= <-] & Hv & Hm).
    destruct (validUntil d) as [v|].
    + specialize (Hv v eq_refl).
      destruct (Z.gtb_spec now v); [lia|].
      destruct (maxUses d) as [m|]; [|reflexivity].
      destruct (Z.eqb_spec m 0); [reflexivity|]. simpl.
      specialize (Hm m eq_refl n).
      destruct (Z.geb_spec (currentUses d) m); [lia | reflexivity].
    + destruct (maxUses d) as [m|]; [|reflexivity].
      destruct (Z.eqb_spec m 0); [reflexivity|]. simpl.
      specialize (Hm m eq_refl n).
      destruct (Z.geb_spec (currentUses d) m); [lia | reflexivity].
Qed.

(** A code is valid exactly when the first discount of the plan that
    carries it is neither expired (no [validUntil], or now not after it)
    nor used up (no [maxUses], a [maxUses] of 0, or fewer uses than
    [maxUses]).  Discounts with the same code further down the list are
    never consulted. *)
Theorem isDiscountValid_first_match (now : Date) (discounts : list Discount)
    (c : option string) :
  isDiscountValid now discounts c = true <->
  exists i d,
    discounts !! i = Some d
    /\ code d = c
    /\ (forall j d', discounts !! j = Some d' -> (j < i)%nat -> code d' <> c)
    /\ (forall v, validUntil d = Some v -> now <= v)
    /\ (forall m, maxUses d = Some m -> m <> 0 -> currentUses d < m).
Proof.
  rewrite isDiscountValid_find. split.
  - intros (d & Hf & Hv & Hm). apply find_first in Hf.
    destruct Hf as (i & Hi & Hc & Hfirst).
    exists i, d. split; [exact Hi|].
    apply bool_decide_eq_true in Hc.
    split; [exact Hc|].
    split; [|split; assumption].
    intros j d' Hj Hlt Heq.
    specialize (Hfirst j d' Hj Hlt).
    apply bool_decide_eq_false in Hfirst. contradiction.
  - intros (i & d & Hi & Hc & Hfirst & Hv & Hm).
    exists d. split; [|split; assumption].
    apply find_first. exists i. split; [exact Hi|].
    split; [apply bool_decide_eq_true; exact Hc|].
    intros j d' Hj Hlt. apply bool_decide_eq_false. eauto.
Qed.

(** A code that is not valid now is not valid at any later time: validity
    is only ever lost as time passes. *)
Theorem isDiscountValid_never_returns (now later : Date)
    (discounts : list Discount) (c : option string) :
  now <= later ->
  isDiscountValid later discounts c = true ->
  isDiscountValid now discounts c = true.
Proof.
  intros Hle. rewrite !isDiscountValid_find.
  intros (d & Hf & Hv & Hm). exists d. split; [exact Hf|].
  split; [|exact Hm]. intros v Hd. specialize (Hv v Hd). lia.
Qed.

Lemma isDiscountValid_never_returns_witness :
  isDiscountValid (ymd 2024 5 1)
    [ {| code := Some "SAVE10"; percentage := Some 10;
         validUntil := Some (ymd 2024 6 1); maxUses := Some 0;
         currentUses := 12 |} ]
    (Some "SAVE10")
  = true.
Proof.
  apply (isDiscountValid_never_returns (ymd 2024 5 1) (ymd 2024 5 31));
    [vm_compute; discriminate | vm_compute; reflexivity].
Defined.

End DiscountFacts.

(** ** Invoices, transaction ids and the rows of the ledger *)

Module InvoicingFacts.
Import TransactionModel Invoicing TransactionFacts.

Lemma findOne_None tid db :
  findOne tid db = None <-> forall y, y ∈ db -> transactionId y <> Some tid.
Proof.
  unfold findOne.
  destruct (list_find (fun t => transactionId t = Some tid) db) as [[i x]|] eqn:Hf.
  - apply list_find_Some in Hf. destruct Hf as (Hi & Hx & _).
    split; [discriminate|]. intros H. exfalso.
    apply (H x); [eapply list_elem_of_lookup_2; eauto | exact Hx].
  - apply list_find_None in Hf. split; [|reflexivity].
    intros _ y Hy. rewrite Forall_forall in Hf. apply Hf, Hy.
Qed.

(** Rewriting a row without touching its transaction id does not change
    which row [findOne] finds, only what it holds. *)
Lemma findOne_insert tid db i t t' :
  db !! i = Some t -> transactionId t' = transactionId t ->
  findOne tid (<[i := t']> db)
  = (fun o => if decide (_id o = i) then {| _id := i; doc := t' |} else o)
      <$> findOne tid db.
Proof.
  intros Hi Hid.
  assert (Hlt : (i < length db)%nat) by (eapply lookup_lt_Some; eauto).
  destruct (findOne tid db) as [o|] eqn:Hf; simpl.
  - destruct (findOne_Some _ _ _ Hf) as (Hlook & Htid & Hfirst).
    assert (Hbefore : forall j y, <[i := t']> db !! j = Some y ->
                        (j < _id o)%nat -> transactionId y <> Some tid).
    { intros j y Hj Hjlt. destruct (decide (i = j)) as [<- | Hne].
      - rewrite list_lookup_insert_eq in Hj by exact Hlt.
        injection Hj as <-. rewrite Hid. eapply Hfirst; eauto.
      - rewrite list_lookup_insert_ne in Hj by exact Hne. eapply Hfirst; eauto. }
    destruct (decide (_id o = i)) as [Heq | Hne].
    + apply findOne_intro.
      * apply list_lookup_insert_eq. exact Hlt.
      * rewrite Hid. rewrite Heq, Hi in Hlook. congruence.
      * intros j y Hj Hjlt. apply (Hbefore j y Hj). lia.
    + destruct o as [io x]. simpl in *. apply findOne_intro.
      * rewrite list_lookup_insert_ne by congruence. exact Hlook.
      * exact Htid.
      * exact Hbefore.
  - apply findOne_None. intros y Hy.
    apply list_elem_of_lookup in Hy as [j Hj].
    pose proof (proj1 (findOne_None tid db) Hf) as Hnone.
    destruct (decide (i = j)) as [<- | Hne].
    + rewrite list_lookup_insert_eq in Hj by exact Hlt. injection Hj as <-.
      rewrite Hid. apply Hnone. eapply list_elem_of_lookup_2; eauto.
    + rewrite list_lookup_insert_ne in Hj by exact Hne.
      apply Hnone. eapply list_elem_of_lookup_2; eauto.
Qed.

Lemma generateInvoice_inr tid db inv db' :
  generateInvoice tid db = (inr inv, db') ->
  exists o,
    findOne tid db = Some o
    /\ inv = {| inv_invoiceId := "INV-" +:+ tid;
                inv_invoiceUrl := "/invoices/" +:+ ("INV-" +:+ tid) |}
    /\ db' = <[_id o := set_invoice (Some ("INV-" +:+ tid))
                          (Some ("/invoices/" +:+ ("INV-" +:+ tid))) (doc o)]> db.
Proof.
  unfold generateInvoice.
  destruct (findOne tid db) as [o|] eqn:Hf; [|discriminate].
  destruct (findOne_Some _ _ _ Hf) as (_ & Htid & _).
  rewrite Htid. simpl. intros [= <- <-]. exists o. auto.
Qed.

(** [generateInvoice] on a transaction id that is not in the ledger throws
    and writes nothing.  On one that is, it returns [INV-<id>] and
    [/invoices/INV-<id>], stores them on the first row with that id and
    changes no other row and no other field; asking again returns the same
    identifiers and leaves the ledger as the first call left it. *)
Theorem generateInvoice_idempotent (tid : string) (db : Ledger) :
  (findOne tid db = None ->
     generateInvoice tid db = (inl TransactionNotFound, db))
  /\ (forall o, findOne tid db = Some o ->
        exists db',
          generateInvoice tid db
          = (inr {| inv_invoiceId := "INV-" +:+ tid;
                    inv_invoiceUrl := "/invoices/INV-" +:+ tid |}, db')
          /\ generateInvoice tid db' = generateInvoice tid db
          /\ length db' = length db
          /\ db' !! _id o
             = Some (set_invoice (Some ("INV-" +:+ tid))
                       (Some ("/invoices/INV-" +:+ tid)) (doc o))
          /\ forall j, j <> _id o -> db' !! j = db !! j).
Proof.
  split.
  - intros Hf. unfold generateInvoice. rewrite Hf. reflexivity.
  - intros o Hf.
    destruct (findOne_Some _ _ _ Hf) as (Hlook & Htid & _).
    assert (Hlt : (_id o < length db)%nat) by (eapply lookup_lt_Some; eauto).
    assert (Hrun : generateInvoice tid db
                   = (inr {| inv_invoiceId := "INV-" +:+ tid;
                             inv_invoiceUrl := "/invoices/INV-" +:+ tid |},
                      <[_id o := set_invoice (Some ("INV-" +:+ tid))
                                   (Some ("/invoices/INV-" +:+ tid)) (doc o)]> db)).
    { unfold generateInvoice. rewrite Hf, Htid. reflexivity. }
    eexists. split; [exact Hrun|]. split; [|split; [|split]].
    + rewrite Hrun. unfold generateInvoice at 1.
      rewrite (findOne_insert tid db (_id o) (doc o)
                 (set_invoice (Some ("INV-" +:+ tid))
                    (Some ("/invoices/INV-" +:+ tid)) (doc o))
                 Hlook eq_refl), Hf.
      simpl. rewrite decide_True by reflexivity. simpl. rewrite Htid.
      unfold save. simpl. rewrite list_insert_insert_eq. reflexivity.
    + apply length_insert.
    + apply list_lookup_insert_eq. exact Hlt.
    + intros j Hj. apply list_lookup_insert_ne. congruence.
Qed.

Lemma generateInvoice_idempotent_witness :
  exists db',
    generateInvoice "TRX-1-1" [LedgerSamples.payment100 completed]
    = (inr {| inv_invoiceId := "INV-TRX-1-1";
              inv_invoiceUrl := "/invoices/INV-TRX-1-1" |}, db')
    /\ generateInvoice "TRX-1-1" db'
       = generateInvoice "TRX-1-1" [LedgerSamples.payment100 completed].
Proof.
  destruct (proj2 (generateInvoice_idempotent "TRX-1-1"
                     [LedgerSamples.payment100 completed])
              {| _id := 0; doc := LedgerSamples.payment100 completed |} eq_refl)
    as (db' & Hrun & Hagain & _).
  exists db'. split; [exact Hrun | exact Hagain].
Defined.

End InvoicingFacts.

(** ** Deleting plans and subscriptions *)

Module DeletionFacts.
Import SubscriptionPlanModel Deletion.

Lemma count_cons {A} (p : A -> bool) x l :
  length (filter (fun t => p t = true) (x :: l))
  = (Nat.b2n (p x) + length (filter (fun t => p t = true) l))%nat.
Proof.
  destruct (p x) eqn:Hx; simpl.
  - rewrite filter_cons_True by exact Hx. reflexivity.
  - rewrite filter_cons_False by congruence. reflexivity.
Qed.

Lemma count_zero {A} (p : A -> bool) l :
  length (filter (fun t => p t = true) l) = 0%nat
  <-> forall x, x ∈ l -> p x = false.
Proof.
  induction l as [|y l IH].
  - split; [intros _ x Hx; apply elem_of_nil in Hx; contradiction | reflexivity].
  - rewrite count_cons. split.
    + intros H x Hx. apply elem_of_cons in Hx as [-> | Hx].
      * destruct (p y); [simpl in H; lia | reflexivity].
      * apply IH; [lia | exact Hx].
    + intros H. rewrite (H y) by (apply elem_of_cons; left; reflexivity).
      simpl. apply IH. intros x Hx. apply H. apply elem_of_cons. right. exact Hx.
Qed.

(** *** deletePlan *)

Lemma activeSubscriptions_zero id subs :
  activeSubscriptions id subs = 0%nat
  <-> forall s, s ∈ subs ->
        ~ (SubscriptionModel.plan s = id
           /\ SubscriptionModel.status s = SubscriptionModel.active).
Proof.
  unfold activeSubscriptions.
  rewrite (count_zero
             (fun s => Nat.eqb (SubscriptionModel.plan s) id
                       && SubscriptionModel.status_eqb
                            (SubscriptionModel.status s)
                            SubscriptionModel.active)).
  split; intros H s Hs; specialize (H s Hs).
  - intros [Hp Hst]. rewrite Hp, Hst, Nat.eqb_refl in H. discriminate H.
  - destruct (Nat.eqb_spec (SubscriptionModel.plan s) id) as [Hp | Hp];
      [|reflexivity].
    destruct (SubscriptionModel.status s) eqn:Hst; try reflexivity.
    exfalso. apply H. split; [exact Hp | reflexivity].
Qed.

(** [deletePlan] deletes nothing.  It answers 404 exactly when the plan
    does not exist, and 400, naming their number, exactly when it exists
    and some subscription of status 'active' refers to it.  When the plan
    exists and no active subscription refers to it (subscriptions of any
    other status do not count), the handler throws on [plan.remove()]: the
    answer is never 204 and the plan is still there. *)
Theorem deletePlan_never_deletes (plans : gmap nat SubscriptionPlan)
    (subs : list SubscriptionModel.Subscription) (id : nat) :
  (plans !! id = None ->
   deletePlan plans subs id = (Fail404 "Subscription plan not found", plans))
  /\ (is_Some (plans !! id) ->
      (exists s, s ∈ subs /\ SubscriptionModel.plan s = id
                 /\ SubscriptionModel.status s = SubscriptionModel.active) ->
      deletePlan plans subs id
      = (Fail400 ("This plan cannot be deleted because it has "
                  +:+ pretty (activeSubscriptions id subs)
                  +:+ " active subscriptions"), plans)
      /\ (0 < activeSubscriptions id subs)%nat)
  /\ (is_Some (plans !! id) ->
      (forall s, s ∈ subs ->
         ~ (SubscriptionModel.plan s = id
            /\ SubscriptionModel.status s = SubscriptionModel.active)) ->
      deletePlan plans subs id = (Next TypeError, plans))
  /\ (deletePlan plans subs id).1 <> Success204
  /\ (deletePlan plans subs id).2 = plans.
Proof.
  unfold deletePlan.
  destruct (plans !! id) as [plan|] eqn:Hp.
  2: { split; [reflexivity|].
       split; [intros [? H]; discriminate H|].
       split; [intros [? H]; discriminate H|].
       split; [discriminate | reflexivity]. }
  split; [discriminate|].
  destruct (Nat.ltb_spec 0 (activeSubscriptions id subs)) as [Hpos | Hzero];
    simpl.
  - split; [intros _ _; split; [reflexivity | exact Hpos]|].
    split; [|split; [discriminate | reflexivity]].
    intros _ H. apply activeSubscriptions_zero in H. lia.
  - split; [|split; [reflexivity | split; [discriminate | reflexivity]]].
    intros _ (s & Hs & Hplan & Hst).
    assert (H0 : activeSubscriptions id subs = 0%nat) by lia.
    exfalso. apply (proj1 (activeSubscriptions_zero id subs) H0 s Hs).
    split; assumption.
Qed.

Lemma deletePlan_never_deletes_witness :
  deletePlan (<[0%nat := Samples.monthly4]> (∅ : gmap nat SubscriptionPlan))
    [Samples.sub SubscriptionModel.pending (Some 4)] 0
  = (Next TypeError,
     <[0%nat := Samples.monthly4]> (∅ : gmap nat SubscriptionPlan)).
Proof.
  apply (proj1 (proj2 (proj2
           (deletePlan_never_deletes
              (<[0%nat := Samples.monthly4]> (∅ : gmap nat SubscriptionPlan))
              [Samples.sub SubscriptionModel.pending (Some 4)] 0)))).
  - exists Samples.monthly4. apply lookup_insert_eq.
  - intros s Hs [_ Hst].
    apply list_elem_of_singleton in Hs. subst s. discriminate Hst.
Defined.

(** *** deleteSubscription *)

Lemma activeTransactions_zero id ledger :
  activeTransactions id ledger = 0%nat
  <-> forall t, t ∈ ledger -> TransactionModel.subscription t = id ->
        TransactionModel.status t = TransactionModel.refunded.
Proof.
  unfold activeTransactions.
  rewrite (count_zero
             (fun t => Nat.eqb (TransactionModel.subscription t) id
                       && negb (TransactionModel.status_eqb
                                  (TransactionModel.status t)
                                  TransactionModel.refunded))).
  split; intros H t Ht.
  - intros Hs. specialize (H t Ht). rewrite Hs, Nat.eqb_refl in H.
    destruct (TransactionModel.status t); simpl in H; congruence.
  - destruct (Nat.eqb_spec (TransactionModel.subscription t) id) as [Hs | Hs];
      [|reflexivity].
    rewrite (H t Ht Hs). reflexivity.
Qed.

(** [deleteSubscription] deletes nothing.  It answers 404 exactly when the
    subscription does not exist, and 400, naming their number, exactly
    when it exists and has a transaction that is not 'refunded'.  When it
    exists and every transaction of it is 'refunded' (in particular when
    it has none), the handler throws on [subscription.remove()]: the
    answer is never 204 and the subscription is still there. *)
Theorem deleteSubscription_never_deletes
    (subs : gmap nat SubscriptionModel.Subscription)
    (ledger : list TransactionModel.Transaction) (id : nat) :
  (subs !! id = None ->
   deleteSubscription subs ledger id = (Fail404 "Subscription not found", subs))
  /\ (is_Some (subs !! id) ->
      (exists t, t ∈ ledger /\ TransactionModel.subscription t = id
                 /\ TransactionModel.status t <> TransactionModel.refunded) ->
      deleteSubscription subs ledger id
      = (Fail400 ("This subscription has "
                  +:+ pretty (activeTransactions id ledger)
                  +:+ " active transactions and cannot be deleted"), subs)
      /\ (0 < activeTransactions id ledger)%nat)
  /\ (is_Some (subs !! id) ->
      (forall t, t ∈ ledger -> TransactionModel.subscription t = id ->
         TransactionModel.status t = TransactionModel.refunded) ->
      deleteSubscription subs ledger id = (Next TypeError, subs))
  /\ (deleteSubscription subs ledger id).1 <> Success204
  /\ (deleteSubscription subs ledger id).2 = subs.
Proof.
  unfold deleteSubscription.
  destruct (subs !! id) as [s|] eqn:Hs.
  2: { split; [reflexivity|].
       split; [intros [? H]; discriminate H|].
       split; [intros [? H]; discriminate H|].
       split; [discriminate | reflexivity]. }
  split; [discriminate|].
  destruct (Nat.ltb_spec 0 (activeTransactions id ledger)) as [Hpos | Hzero];
    simpl.
  - split; [intros _ _; split; [reflexivity | exact Hpos]|].
    split; [|split; [discriminate | reflexivity]].
    intros _ H. apply activeTransactions_zero in H. lia.
  - split; [|split; [reflexivity | split; [discriminate | reflexivity]]].
    intros _ (t & Ht & Hsub & Hst).
    assert (H0 : activeTransactions id ledger = 0%nat) by lia.
    exfalso. apply Hst.
    apply (proj1 (activeTransactions_zero id ledger) H0 t Ht Hsub).
Qed.

Lemma deleteSubscription_never_deletes_witness :
  deleteSubscription
    (<[0%nat := Samples.sub SubscriptionModel.cancelled None]>
       (∅ : gmap nat SubscriptionModel.Subscription))
    [LedgerSamples.payment100 TransactionModel.refunded] 0
  = (Next TypeError,
     <[0%nat := Samples.sub SubscriptionModel.cancelled None]>
       (∅ : gmap nat SubscriptionModel.Subscription)).
Proof.
  apply (proj1 (proj2 (proj2
           (deleteSubscription_never_deletes
              (<[0%nat := Samples.sub SubscriptionModel.cancelled None]>
                 (∅ : gmap nat SubscriptionModel.Subscription))
              [LedgerSamples.payment100 TransactionModel.refunded] 0)))).
  - eexists. apply lookup_insert_eq.
  - intros t Ht _.
    apply list_elem_of_singleton in Ht. subst t. reflexivity.
Defined.

End DeletionFacts.

(** ** Who may create what, and what the controller creates *)

Module AccessFacts.
Import SubscriptionPlanModel SubscriptionModel.
Import JsDateFacts SubscriptionFacts EntitlementFacts StudentControllerFacts.

(** No requester of role 'student' creates a subscription through
    [createSubscription]: the profile's user is populated, its rendering
    is never the requester's id, and the request is answered 403 even for
    the requester's own profile.  A subscription that is created (for
    another role) is filed under the profile of the URL and the plan of
    the body.  An unknown profile is answered 404, and every answer other
    than 201 writes nothing. *)
Theorem student_never_subscribes (handlerNow defaultNow : Date)
    (students : list StudentProfile) (plans : list SubscriptionPlan)
    (db : Collection) (req : StudentController.Request) :
  (students !! StudentController.params_id req = None ->
   StudentController.createSubscription handlerNow defaultNow students plans
     db req
   = (StudentController.Fail404 "Student not found", db))
  /\ (forall profile u,
        students !! StudentController.params_id req = Some profile ->
        isStudent (StudentController.req_user req) = true ->
        user profile = Some u ->
        StudentController.createSubscription handlerNow defaultNow students
          plans db req
        = (StudentController.Fail403
             "You can only create subscriptions for yourself", db))
  /\ (forall sub db',
        StudentController.createSubscription handlerNow defaultNow students
          plans db req
        = (StudentController.Success201 sub, db') ->
        isStudent (StudentController.req_user req) = false
        /\ SubscriptionModel.student (doc sub) = StudentController.params_id req
        /\ StudentController.body_plan (StudentController.body req)
           = Some (SubscriptionModel.plan (doc sub)))
  /\ (forall resp db',
        StudentController.createSubscription handlerNow defaultNow students
          plans db req
        = (resp, db') ->
        (forall sub, resp <> StudentController.Success201 sub) -> db' = db).
Proof.
  split; [|split; [|split]].
  - intros Hp. unfold StudentController.createSubscription. rewrite Hp.
    reflexivity.
  - intros profile u Hp Hrole Hu.
    unfold StudentController.createSubscription, StudentController.denied.
    rewrite Hp, Hrole, Hu. reflexivity.
  - intros sub db' Hrun.
    destruct (createSubscription_201 _ _ _ _ _ _ _ _ Hrun)
      as (startDate & Hc & _ & _ & _ & Hrole).
    destruct (construct_fields _ _ _ Hc) as (Hst & Hplan & _).
    simpl in Hst, Hplan. injection Hst as Hst. auto.
  - intros resp db'. unfold StudentController.createSubscription.
    destruct (students !! _) as [profile|]; [|congruence].
    destruct (StudentController.denied req profile) as [e | [|]];
      [congruence | congruence |].
    destruct (_ ≫= _) as [plan|]; [|congruence].
    destruct (create _ _ _ _) as [e | [d db1]]; [congruence|].
    intros [= <- <-] H. exfalso. eapply H. reflexivity.
Qed.

Lemma student_never_subscribes_witness :
  id RequestSamples.alice = 7%nat
  /\ RequestSamples.students !! 0%nat = Some {| user := Some 7%nat |}
  /\ StudentController.createSubscription (ymd 2024 1 10) (ymd 2024 1 10)
       RequestSamples.students Samples.plans []
       (RequestSamples.subscribe RequestSamples.alice)
     = (StudentController.Fail403
          "You can only create subscriptions for yourself", []).
Proof.
  split; [reflexivity|]. split; [reflexivity|].
  apply (proj1 (proj2 (student_never_subscribes (ymd 2024 1 10) (ymd 2024 1 10)
                         RequestSamples.students Samples.plans []
                         (RequestSamples.subscribe RequestSamples.alice)))
           {| user := Some 7%nat |} 7%nat eq_refl eq_refl eq_refl).
Defined.



(** What the pre-save hook derives from a plan of [n] sessions ([n > 0])
    buys exactly [n] deductions: once the document is stored, of [k] calls
    of [deductSession] in a row the first [min k n] succeed and the others
    fail. *)
Theorem hook_sessions_are_spendable (plans : list SubscriptionPlan)
    (now : Date) (this : Subscription) (p : SubscriptionPlan) (n : Z)
    (k : nat) :
  endDate this = None ->
  plans !! plan this = Some p ->
  maxSessions p = Some n -> 0 < n ->
  exists this',
    preSave plans now true this = inr this'
    /\ remainingSessions this' = Some n
    /\ forall db i,
         db !! i = Some this' ->
         (deductSessions k {| _id := i; doc := this' |} db).1.1
         = replicate (Nat.min k (Z.to_nat n)) true
             ++ replicate (k - Z.to_nat n) false
         /\ remainingSessions
              <$> (deductSessions k {| _id := i; doc := this' |} db).2 !! i
            = Some (Some (Z.max 0 (n - Z.of_nat k))).
Proof.
  intros He Hp Hmax Hn.
  rewrite (preSave_derives _ _ _ _ He Hp). cbv zeta.
  assert (Ht : truthyNumber (maxSessions p) = true).
  { rewrite Hmax. simpl. destruct (Z.eqb_spec n 0); [lia | reflexivity]. }
  rewrite Ht, Hmax.
  eexists. split; [reflexivity|]. split; [reflexivity|].
  intros db i Hi.
  match goal with
  | |- context [deductSessions k ?d db] =>
      destruct (deductSessions_counts k d db n eq_refl ltac:(lia))
        as (this' & db2 & Hrun & Hrem & _ & _ & _ & Hdb)
  end.
  rewrite Hrun. simpl. split; [reflexivity|].
  simpl in Hdb. rewrite (Hdb Hi).
  simpl. rewrite Hrem. do 2 f_equal. lia.
Qed.

Lemma hook_sessions_are_spendable_witness :
  exists this',
    preSave Samples.plans (ymd 2024 1 10) true (Samples.fresh 0 None) = inr this'
    /\ (deductSessions 5 {| _id := 0; doc := this' |} [this']).1.1
       = [true; true; true; true; false].
Proof.
  destruct (hook_sessions_are_spendable Samples.plans (ymd 2024 1 10)
              (Samples.fresh 0 None) Samples.monthly4 4 5
              eq_refl eq_refl eq_refl ltac:(lia))
    as (this' & Hrun & _ & Hres).
  exists this'. split; [exact Hrun|].
  apply (Hres [this'] 0%nat eq_refl).
Defined.

End AccessFacts.
